(** * Password Strength Meter: a shallow embedding of [app.py]

    The Streamlit application scores a password with four rule checks,
    optionally averages that score with the one of the [zxcvbn] estimator,
    and renders the result as a percentage bar, a colour and a tier message.
    It also offers a random password generator.

    Python values are embedded as follows.
    - [str] is a list of Unicode code points ([N]); [len], [in], [str.lower]
      and the [re.search] calls of the program are functions on such lists.
    - Numbers: the rule score is an [int] ([Z]); the combined score is an
      [int] or a [float] and is embedded in [Q].  Every float the program
      computes is a small multiple of 1/8 (a sum of two integers halved,
      divided by 4, times 100), which binary floating point represents
      exactly, so the rational value is the float's value.
    - The call of the external estimator is the only effect of
      [check_password_strength]; it is recorded in a log of calls.
    - [random.choice] threads an explicit generator state. *)

From Stdlib Require Import List Bool NArith ZArith QArith Qround Lia String Ascii
  Permutation.
Import ListNotations.

(** ** Unicode character data

    [str.lower] and the regular expression class [\d] consult the Unicode
    character database of the interpreter.  The tables below are those of
    Unicode 14.0.0 (CPython 3.11), as closed ranges of code points. *)

Module Unicode.

Local Open Scope N_scope.

Definition in_ranges (table : list (N * N)) (c : N) : bool :=
  existsb (fun r => (fst r <=? c) && (c <=? snd r)) table.

(** General category Nd (decimal digits). *)
Definition Nd : list (N * N) :=
  [ (0x0030, 0x0039); (0x0660, 0x0669); (0x06F0, 0x06F9); (0x07C0, 0x07C9);
    (0x0966, 0x096F); (0x09E6, 0x09EF); (0x0A66, 0x0A6F); (0x0AE6, 0x0AEF);
    (0x0B66, 0x0B6F); (0x0BE6, 0x0BEF); (0x0C66, 0x0C6F); (0x0CE6, 0x0CEF);
    (0x0D66, 0x0D6F); (0x0DE6, 0x0DEF); (0x0E50, 0x0E59); (0x0ED0, 0x0ED9);
    (0x0F20, 0x0F29); (0x1040, 0x1049); (0x1090, 0x1099); (0x17E0, 0x17E9);
    (0x1810, 0x1819); (0x1946, 0x194F); (0x19D0, 0x19D9); (0x1A80, 0x1A89);
    (0x1A90, 0x1A99); (0x1B50, 0x1B59); (0x1BB0, 0x1BB9); (0x1C40, 0x1C49);
    (0x1C50, 0x1C59); (0xA620, 0xA629); (0xA8D0, 0xA8D9); (0xA900, 0xA909);
    (0xA9D0, 0xA9D9); (0xA9F0, 0xA9F9); (0xAA50, 0xAA59); (0xABF0, 0xABF9);
    (0xFF10, 0xFF19); (0x104A0, 0x104A9); (0x10D30, 0x10D39); (0x11066, 0x1106F);
    (0x110F0, 0x110F9); (0x11136, 0x1113F); (0x111D0, 0x111D9); (0x112F0, 0x112F9);
    (0x11450, 0x11459); (0x114D0, 0x114D9); (0x11650, 0x11659); (0x116C0, 0x116C9);
    (0x11730, 0x11739); (0x118E0, 0x118E9); (0x11950, 0x11959); (0x11C50, 0x11C59);
    (0x11D50, 0x11D59); (0x11DA0, 0x11DA9); (0x16A60, 0x16A69); (0x16AC0, 0x16AC9);
    (0x16B50, 0x16B59); (0x1D7CE, 0x1D7FF); (0x1E140, 0x1E149); (0x1E2F0, 0x1E2F9);
    (0x1E950, 0x1E959); (0x1FBF0, 0x1FBF9) ].
(** Derived property Cased. *)
Definition Cased : list (N * N) :=
  [ (0x0041, 0x005A); (0x0061, 0x007A); (0x00AA, 0x00AA); (0x00B5, 0x00B5);
    (0x00BA, 0x00BA); (0x00C0, 0x00D6); (0x00D8, 0x00F6); (0x00F8, 0x01BA);
    (0x01BC, 0x01BF); (0x01C4, 0x0293); (0x0295, 0x02B8); (0x02C0, 0x02C1);
    (0x02E0, 0x02E4); (0x0345, 0x0345); (0x0370, 0x0373); (0x0376, 0x0377);
    (0x037A, 0x037D); (0x037F, 0x037F); (0x0386, 0x0386); (0x0388, 0x038A);
    (0x038C, 0x038C); (0x038E, 0x03A1); (0x03A3, 0x03F5); (0x03F7, 0x0481);
    (0x048A, 0x052F); (0x0531, 0x0556); (0x0560, 0x0588); (0x10A0, 0x10C5);
    (0x10C7, 0x10C7); (0x10CD, 0x10CD); (0x10D0, 0x10FA); (0x10FD, 0x10FF);
    (0x13A0, 0x13F5); (0x13F8, 0x13FD); (0x1C80, 0x1C88); (0x1C90, 0x1CBA);
    (0x1CBD, 0x1CBF); (0x1D00, 0x1DBF); (0x1E00, 0x1F15); (0x1F18, 0x1F1D);
    (0x1F20, 0x1F45); (0x1F48, 0x1F4D); (0x1F50, 0x1F57); (0x1F59, 0x1F59);
    (0x1F5B, 0x1F5B); (0x1F5D, 0x1F5D); (0x1F5F, 0x1F7D); (0x1F80, 0x1FB4);
    (0x1FB6, 0x1FBC); (0x1FBE, 0x1FBE); (0x1FC2, 0x1FC4); (0x1FC6, 0x1FCC);
    (0x1FD0, 0x1FD3); (0x1FD6, 0x1FDB); (0x1FE0, 0x1FEC); (0x1FF2, 0x1FF4);
    (0x1FF6, 0x1FFC); (0x2071, 0x2071); (0x207F, 0x207F); (0x2090, 0x209C);
    (0x2102, 0x2102); (0x2107, 0x2107); (0x210A, 0x2113); (0x2115, 0x2115);
    (0x2119, 0x211D); (0x2124, 0x2124); (0x2126, 0x2126); (0x2128, 0x2128);
    (0x212A, 0x212D); (0x212F, 0x2134); (0x2139, 0x2139); (0x213C, 0x213F);
    (0x2145, 0x2149); (0x214E, 0x214E); (0x2160, 0x217F); (0x2183, 0x2184);
    (0x24B6, 0x24E9); (0x2C00, 0x2CE4); (0x2CEB, 0x2CEE); (0x2CF2, 0x2CF3);
    (0x2D00, 0x2D25); (0x2D27, 0x2D27); (0x2D2D, 0x2D2D); (0xA640, 0xA66D);
    (0xA680, 0xA69D); (0xA722, 0xA787); (0xA78B, 0xA78E); (0xA790, 0xA7CA);
    (0xA7D0, 0xA7D1); (0xA7D3, 0xA7D3); (0xA7D5, 0xA7D9); (0xA7F5, 0xA7F6);
    (0xA7F8, 0xA7FA); (0xAB30, 0xAB5A); (0xAB5C, 0xAB68); (0xAB70, 0xABBF);
    (0xFB00, 0xFB06); (0xFB13, 0xFB17); (0xFF21, 0xFF3A); (0xFF41, 0xFF5A);
    (0x10400, 0x1044F); (0x104B0, 0x104D3); (0x104D8, 0x104FB); (0x10570, 0x1057A);
    (0x1057C, 0x1058A); (0x1058C, 0x10592); (0x10594, 0x10595); (0x10597, 0x105A1);
    (0x105A3, 0x105B1); (0x105B3, 0x105B9); (0x105BB, 0x105BC); (0x10780, 0x10780);
    (0x10783, 0x10785); (0x10787, 0x107B0); (0x107B2, 0x107BA); (0x10C80, 0x10CB2);
    (0x10CC0, 0x10CF2); (0x118A0, 0x118DF); (0x16E40, 0x16E7F); (0x1D400, 0x1D454);
    (0x1D456, 0x1D49C); (0x1D49E, 0x1D49F); (0x1D4A2, 0x1D4A2); (0x1D4A5, 0x1D4A6);
    (0x1D4A9, 0x1D4AC); (0x1D4AE, 0x1D4B9); (0x1D4BB, 0x1D4BB); (0x1D4BD, 0x1D4C3);
    (0x1D4C5, 0x1D505); (0x1D507, 0x1D50A); (0x1D50D, 0x1D514); (0x1D516, 0x1D51C);
    (0x1D51E, 0x1D539); (0x1D53B, 0x1D53E); (0x1D540, 0x1D544); (0x1D546, 0x1D546);
    (0x1D54A, 0x1D550); (0x1D552, 0x1D6A5); (0x1D6A8, 0x1D6C0); (0x1D6C2, 0x1D6DA);
    (0x1D6DC, 0x1D6FA); (0x1D6FC, 0x1D714); (0x1D716, 0x1D734); (0x1D736, 0x1D74E);
    (0x1D750, 0x1D76E); (0x1D770, 0x1D788); (0x1D78A, 0x1D7A8); (0x1D7AA, 0x1D7C2);
    (0x1D7C4, 0x1D7CB); (0x1DF00, 0x1DF09); (0x1DF0B, 0x1DF1E); (0x1E900, 0x1E943);
    (0x1F130, 0x1F149); (0x1F150, 0x1F169); (0x1F170, 0x1F189) ].
(** Derived property Case_Ignorable. *)
Definition Case_Ignorable : list (N * N) :=
  [ (0x0027, 0x0027); (0x002E, 0x002E); (0x003A, 0x003A); (0x005E, 0x005E);
    (0x0060, 0x0060); (0x00A8, 0x00A8); (0x00AD, 0x00AD); (0x00AF, 0x00AF);
    (0x00B4, 0x00B4); (0x00B7, 0x00B8); (0x02B0, 0x036F); (0x0374, 0x0375);
    (0x037A, 0x037A); (0x0384, 0x0385); (0x0387, 0x0387); (0x0483, 0x0489);
    (0x0559, 0x0559); (0x055F, 0x055F); (0x0591, 0x05BD); (0x05BF, 0x05BF);
    (0x05C1, 0x05C2); (0x05C4, 0x05C5); (0x05C7, 0x05C7); (0x05F4, 0x05F4);
    (0x0600, 0x0605); (0x0610, 0x061A); (0x061C, 0x061C); (0x0640, 0x0640);
    (0x064B, 0x065F); (0x0670, 0x0670); (0x06D6, 0x06DD); (0x06DF, 0x06E8);
    (0x06EA, 0x06ED); (0x070F, 0x070F); (0x0711, 0x0711); (0x0730, 0x074A);
    (0x07A6, 0x07B0); (0x07EB, 0x07F5); (0x07FA, 0x07FA); (0x07FD, 0x07FD);
    (0x0816, 0x082D); (0x0859, 0x085B); (0x0888, 0x0888); (0x0890, 0x0891);
    (0x0898, 0x089F); (0x08C9, 0x0902); (0x093A, 0x093A); (0x093C, 0x093C);
    (0x0941, 0x0948); (0x094D, 0x094D); (0x0951, 0x0957); (0x0962, 0x0963);
    (0x0971, 0x0971); (0x0981, 0x0981); (0x09BC, 0x09BC); (0x09C1, 0x09C4);
    (0x09CD, 0x09CD); (0x09E2, 0x09E3); (0x09FE, 0x09FE); (0x0A01, 0x0A02);
    (0x0A3C, 0x0A3C); (0x0A41, 0x0A42); (0x0A47, 0x0A48); (0x0A4B, 0x0A4D);
    (0x0A51, 0x0A51); (0x0A70, 0x0A71); (0x0A75, 0x0A75); (0x0A81, 0x0A82);
    (0x0ABC, 0x0ABC); (0x0AC1, 0x0AC5); (0x0AC7, 0x0AC8); (0x0ACD, 0x0ACD);
    (0x0AE2, 0x0AE3); (0x0AFA, 0x0AFF); (0x0B01, 0x0B01); (0x0B3C, 0x0B3C);
    (0x0B3F, 0x0B3F); (0x0B41, 0x0B44); (0x0B4D, 0x0B4D); (0x0B55, 0x0B56);
    (0x0B62, 0x0B63); (0x0B82, 0x0B82); (0x0BC0, 0x0BC0); (0x0BCD, 0x0BCD);
    (0x0C00, 0x0C00); (0x0C04, 0x0C04); (0x0C3C, 0x0C3C); (0x0C3E, 0x0C40);
    (0x0C46, 0x0C48); (0x0C4A, 0x0C4D); (0x0C55, 0x0C56); (0x0C62, 0x0C63);
    (0x0C81, 0x0C81); (0x0CBC, 0x0CBC); (0x0CBF, 0x0CBF); (0x0CC6, 0x0CC6);
    (0x0CCC, 0x0CCD); (0x0CE2, 0x0CE3); (0x0D00, 0x0D01); (0x0D3B, 0x0D3C);
    (0x0D41, 0x0D44); (0x0D4D, 0x0D4D); (0x0D62, 0x0D63); (0x0D81, 0x0D81);
    (0x0DCA, 0x0DCA); (0x0DD2, 0x0DD4); (0x0DD6, 0x0DD6); (0x0E31, 0x0E31);
    (0x0E34, 0x0E3A); (0x0E46, 0x0E4E); (0x0EB1, 0x0EB1); (0x0EB4, 0x0EBC);
    (0x0EC6, 0x0EC6); (0x0EC8, 0x0ECD); (0x0F18, 0x0F19); (0x0F35, 0x0F35);
    (0x0F37, 0x0F37); (0x0F39, 0x0F39); (0x0F71, 0x0F7E); (0x0F80, 0x0F84);
    (0x0F86, 0x0F87); (0x0F8D, 0x0F97); (0x0F99, 0x0FBC); (0x0FC6, 0x0FC6);
    (0x102D, 0x1030); (0x1032, 0x1037); (0x1039, 0x103A); (0x103D, 0x103E);
    (0x1058, 0x1059); (0x105E, 0x1060); (0x1071, 0x1074); (0x1082, 0x1082);
    (0x1085, 0x1086); (0x108D, 0x108D); (0x109D, 0x109D); (0x10FC, 0x10FC);
    (0x135D, 0x135F); (0x1712, 0x1714); (0x1732, 0x1733); (0x1752, 0x1753);
    (0x1772, 0x1773); (0x17B4, 0x17B5); (0x17B7, 0x17BD); (0x17C6, 0x17C6);
    (0x17C9, 0x17D3); (0x17D7, 0x17D7); (0x17DD, 0x17DD); (0x180B, 0x180F);
    (0x1843, 0x1843); (0x1885, 0x1886); (0x18A9, 0x18A9); (0x1920, 0x1922);
    (0x1927, 0x1928); (0x1932, 0x1932); (0x1939, 0x193B); (0x1A17, 0x1A18);
    (0x1A1B, 0x1A1B); (0x1A56, 0x1A56); (0x1A58, 0x1A5E); (0x1A60, 0x1A60);
    (0x1A62, 0x1A62); (0x1A65, 0x1A6C); (0x1A73, 0x1A7C); (0x1A7F, 0x1A7F);
    (0x1AA7, 0x1AA7); (0x1AB0, 0x1ACE); (0x1B00, 0x1B03); (0x1B34, 0x1B34);
    (0x1B36, 0x1B3A); (0x1B3C, 0x1B3C); (0x1B42, 0x1B42); (0x1B6B, 0x1B73);
    (0x1B80, 0x1B81); (0x1BA2, 0x1BA5); (0x1BA8, 0x1BA9); (0x1BAB, 0x1BAD);
    (0x1BE6, 0x1BE6); (0x1BE8, 0x1BE9); (0x1BED, 0x1BED); (0x1BEF, 0x1BF1);
    (0x1C2C, 0x1C33); (0x1C36, 0x1C37); (0x1C78, 0x1C7D); (0x1CD0, 0x1CD2);
    (0x1CD4, 0x1CE0); (0x1CE2, 0x1CE8); (0x1CED, 0x1CED); (0x1CF4, 0x1CF4);
    (0x1CF8, 0x1CF9); (0x1D2C, 0x1D6A); (0x1D78, 0x1D78); (0x1D9B, 0x1DFF);
    (0x1FBD, 0x1FBD); (0x1FBF, 0x1FC1); (0x1FCD, 0x1FCF); (0x1FDD, 0x1FDF);
    (0x1FED, 0x1FEF); (0x1FFD, 0x1FFE); (0x200B, 0x200F); (0x2018, 0x2019);
    (0x2024, 0x2024); (0x2027, 0x2027); (0x202A, 0x202E); (0x2060, 0x2064);
    (0x2066, 0x206F); (0x2071, 0x2071); (0x207F, 0x207F); (0x2090, 0x209C);
    (0x20D0, 0x20F0); (0x2C7C, 0x2C7D); (0x2CEF, 0x2CF1); (0x2D6F, 0x2D6F);
    (0x2D7F, 0x2D7F); (0x2DE0, 0x2DFF); (0x2E2F, 0x2E2F); (0x3005, 0x3005);
    (0x302A, 0x302D); (0x3031, 0x3035); (0x303B, 0x303B); (0x3099, 0x309E);
    (0x30FC, 0x30FE); (0xA015, 0xA015); (0xA4F8, 0xA4FD); (0xA60C, 0xA60C);
    (0xA66F, 0xA672); (0xA674, 0xA67D); (0xA67F, 0xA67F); (0xA69C, 0xA69F);
    (0xA6F0, 0xA6F1); (0xA700, 0xA721); (0xA770, 0xA770); (0xA788, 0xA78A);
    (0xA7F2, 0xA7F4); (0xA7F8, 0xA7F9); (0xA802, 0xA802); (0xA806, 0xA806);
    (0xA80B, 0xA80B); (0xA825, 0xA826); (0xA82C, 0xA82C); (0xA8C4, 0xA8C5);
    (0xA8E0, 0xA8F1); (0xA8FF, 0xA8FF); (0xA926, 0xA92D); (0xA947, 0xA951);
    (0xA980, 0xA982); (0xA9B3, 0xA9B3); (0xA9B6, 0xA9B9); (0xA9BC, 0xA9BD);
    (0xA9CF, 0xA9CF); (0xA9E5, 0xA9E6); (0xAA29, 0xAA2E); (0xAA31, 0xAA32);
    (0xAA35, 0xAA36); (0xAA43, 0xAA43); (0xAA4C, 0xAA4C); (0xAA70, 0xAA70);
    (0xAA7C, 0xAA7C); (0xAAB0, 0xAAB0); (0xAAB2, 0xAAB4); (0xAAB7, 0xAAB8);
    (0xAABE, 0xAABF); (0xAAC1, 0xAAC1); (0xAADD, 0xAADD); (0xAAEC, 0xAAED);
    (0xAAF3, 0xAAF4); (0xAAF6, 0xAAF6); (0xAB5B, 0xAB5F); (0xAB69, 0xAB6B);
    (0xABE5, 0xABE5); (0xABE8, 0xABE8); (0xABED, 0xABED); (0xFB1E, 0xFB1E);
    (0xFBB2, 0xFBC2); (0xFE00, 0xFE0F); (0xFE13, 0xFE13); (0xFE20, 0xFE2F);
    (0xFE52, 0xFE52); (0xFE55, 0xFE55); (0xFEFF, 0xFEFF); (0xFF07, 0xFF07);
    (0xFF0E, 0xFF0E); (0xFF1A, 0xFF1A); (0xFF3E, 0xFF3E); (0xFF40, 0xFF40);
    (0xFF70, 0xFF70); (0xFF9E, 0xFF9F); (0xFFE3, 0xFFE3); (0xFFF9, 0xFFFB);
    (0x101FD, 0x101FD); (0x102E0, 0x102E0); (0x10376, 0x1037A); (0x10780, 0x10785);
    (0x10787, 0x107B0); (0x107B2, 0x107BA); (0x10A01, 0x10A03); (0x10A05, 0x10A06);
    (0x10A0C, 0x10A0F); (0x10A38, 0x10A3A); (0x10A3F, 0x10A3F); (0x10AE5, 0x10AE6);
    (0x10D24, 0x10D27); (0x10EAB, 0x10EAC); (0x10F46, 0x10F50); (0x10F82, 0x10F85);
    (0x11001, 0x11001); (0x11038, 0x11046); (0x11070, 0x11070); (0x11073, 0x11074);
    (0x1107F, 0x11081); (0x110B3, 0x110B6); (0x110B9, 0x110BA); (0x110BD, 0x110BD);
    (0x110C2, 0x110C2); (0x110CD, 0x110CD); (0x11100, 0x11102); (0x11127, 0x1112B);
    (0x1112D, 0x11134); (0x11173, 0x11173); (0x11180, 0x11181); (0x111B6, 0x111BE);
    (0x111C9, 0x111CC); (0x111CF, 0x111CF); (0x1122F, 0x11231); (0x11234, 0x11234);
    (0x11236, 0x11237); (0x1123E, 0x1123E); (0x112DF, 0x112DF); (0x112E3, 0x112EA);
    (0x11300, 0x11301); (0x1133B, 0x1133C); (0x11340, 0x11340); (0x11366, 0x1136C);
    (0x11370, 0x11374); (0x11438, 0x1143F); (0x11442, 0x11444); (0x11446, 0x11446);
    (0x1145E, 0x1145E); (0x114B3, 0x114B8); (0x114BA, 0x114BA); (0x114BF, 0x114C0);
    (0x114C2, 0x114C3); (0x115B2, 0x115B5); (0x115BC, 0x115BD); (0x115BF, 0x115C0);
    (0x115DC, 0x115DD); (0x11633, 0x1163A); (0x1163D, 0x1163D); (0x1163F, 0x11640);
    (0x116AB, 0x116AB); (0x116AD, 0x116AD); (0x116B0, 0x116B5); (0x116B7, 0x116B7);
    (0x1171D, 0x1171F); (0x11722, 0x11725); (0x11727, 0x1172B); (0x1182F, 0x11837);
    (0x11839, 0x1183A); (0x1193B, 0x1193C); (0x1193E, 0x1193E); (0x11943, 0x11943);
    (0x119D4, 0x119D7); (0x119DA, 0x119DB); (0x119E0, 0x119E0); (0x11A01, 0x11A0A);
    (0x11A33, 0x11A38); (0x11A3B, 0x11A3E); (0x11A47, 0x11A47); (0x11A51, 0x11A56);
    (0x11A59, 0x11A5B); (0x11A8A, 0x11A96); (0x11A98, 0x11A99); (0x11C30, 0x11C36);
    (0x11C38, 0x11C3D); (0x11C3F, 0x11C3F); (0x11C92, 0x11CA7); (0x11CAA, 0x11CB0);
    (0x11CB2, 0x11CB3); (0x11CB5, 0x11CB6); (0x11D31, 0x11D36); (0x11D3A, 0x11D3A);
    (0x11D3C, 0x11D3D); (0x11D3F, 0x11D45); (0x11D47, 0x11D47); (0x11D90, 0x11D91);
    (0x11D95, 0x11D95); (0x11D97, 0x11D97); (0x11EF3, 0x11EF4); (0x13430, 0x13438);
    (0x16AF0, 0x16AF4); (0x16B30, 0x16B36); (0x16B40, 0x16B43); (0x16F4F, 0x16F4F);
    (0x16F8F, 0x16F9F); (0x16FE0, 0x16FE1); (0x16FE3, 0x16FE4); (0x1AFF0, 0x1AFF3);
    (0x1AFF5, 0x1AFFB); (0x1AFFD, 0x1AFFE); (0x1BC9D, 0x1BC9E); (0x1BCA0, 0x1BCA3);
    (0x1CF00, 0x1CF2D); (0x1CF30, 0x1CF46); (0x1D167, 0x1D169); (0x1D173, 0x1D182);
    (0x1D185, 0x1D18B); (0x1D1AA, 0x1D1AD); (0x1D242, 0x1D244); (0x1DA00, 0x1DA36);
    (0x1DA3B, 0x1DA6C); (0x1DA75, 0x1DA75); (0x1DA84, 0x1DA84); (0x1DA9B, 0x1DA9F);
    (0x1DAA1, 0x1DAAF); (0x1E000, 0x1E006); (0x1E008, 0x1E018); (0x1E01B, 0x1E021);
    (0x1E023, 0x1E024); (0x1E026, 0x1E02A); (0x1E130, 0x1E13D); (0x1E2AE, 0x1E2AE);
    (0x1E2EC, 0x1E2EF); (0x1E8D0, 0x1E8D6); (0x1E944, 0x1E94B); (0x1F3FB, 0x1F3FF);
    (0xE0001, 0xE0001); (0xE0020, 0xE007F); (0xE0100, 0xE01EF) ].
(** Simple lowercase mappings, as runs [(first, last, step, target)]: every
    code point [first + k * step <= last] maps to [target + k * step]. *)
Definition Lowercase_Mapping : list (N * N * N * N) :=
  [ (0x0041, 0x005A, 1, 0x0061); (0x00C0, 0x00D6, 1, 0x00E0);
    (0x00D8, 0x00DE, 1, 0x00F8); (0x0100, 0x012E, 2, 0x0101);
    (0x0132, 0x0136, 2, 0x0133); (0x0139, 0x0147, 2, 0x013A);
    (0x014A, 0x0176, 2, 0x014B); (0x0178, 0x0178, 1, 0x00FF);
    (0x0179, 0x017D, 2, 0x017A); (0x0181, 0x0181, 1, 0x0253);
    (0x0182, 0x0184, 2, 0x0183); (0x0186, 0x0186, 1, 0x0254);
    (0x0187, 0x0187, 1, 0x0188); (0x0189, 0x018A, 1, 0x0256);
    (0x018B, 0x018B, 1, 0x018C); (0x018E, 0x018E, 1, 0x01DD);
    (0x018F, 0x018F, 1, 0x0259); (0x0190, 0x0190, 1, 0x025B);
    (0x0191, 0x0191, 1, 0x0192); (0x0193, 0x0193, 1, 0x0260);
    (0x0194, 0x0194, 1, 0x0263); (0x0196, 0x0196, 1, 0x0269);
    (0x0197, 0x0197, 1, 0x0268); (0x0198, 0x0198, 1, 0x0199);
    (0x019C, 0x019C, 1, 0x026F); (0x019D, 0x019D, 1, 0x0272);
    (0x019F, 0x019F, 1, 0x0275); (0x01A0, 0x01A4, 2, 0x01A1);
    (0x01A6, 0x01A6, 1, 0x0280); (0x01A7, 0x01A7, 1, 0x01A8);
    (0x01A9, 0x01A9, 1, 0x0283); (0x01AC, 0x01AC, 1, 0x01AD);
    (0x01AE, 0x01AE, 1, 0x0288); (0x01AF, 0x01AF, 1, 0x01B0);
    (0x01B1, 0x01B2, 1, 0x028A); (0x01B3, 0x01B5, 2, 0x01B4);
    (0x01B7, 0x01B7, 1, 0x0292); (0x01B8, 0x01B8, 1, 0x01B9);
    (0x01BC, 0x01BC, 1, 0x01BD); (0x01C4, 0x01C4, 1, 0x01C6);
    (0x01C5, 0x01C5, 1, 0x01C6); (0x01C7, 0x01C7, 1, 0x01C9);
    (0x01C8, 0x01C8, 1, 0x01C9); (0x01CA, 0x01CA, 1, 0x01CC);
    (0x01CB, 0x01DB, 2, 0x01CC); (0x01DE, 0x01EE, 2, 0x01DF);
    (0x01F1, 0x01F1, 1, 0x01F3); (0x01F2, 0x01F4, 2, 0x01F3);
    (0x01F6, 0x01F6, 1, 0x0195); (0x01F7, 0x01F7, 1, 0x01BF);
    (0x01F8, 0x021E, 2, 0x01F9); (0x0220, 0x0220, 1, 0x019E);
    (0x0222, 0x0232, 2, 0x0223); (0x023A, 0x023A, 1, 0x2C65);
    (0x023B, 0x023B, 1, 0x023C); (0x023D, 0x023D, 1, 0x019A);
    (0x023E, 0x023E, 1, 0x2C66); (0x0241, 0x0241, 1, 0x0242);
    (0x0243, 0x0243, 1, 0x0180); (0x0244, 0x0244, 1, 0x0289);
    (0x0245, 0x0245, 1, 0x028C); (0x0246, 0x024E, 2, 0x0247);
    (0x0370, 0x0372, 2, 0x0371); (0x0376, 0x0376, 1, 0x0377);
    (0x037F, 0x037F, 1, 0x03F3); (0x0386, 0x0386, 1, 0x03AC);
    (0x0388, 0x038A, 1, 0x03AD); (0x038C, 0x038C, 1, 0x03CC);
    (0x038E, 0x038F, 1, 0x03CD); (0x0391, 0x03A1, 1, 0x03B1);
    (0x03A4, 0x03AB, 1, 0x03C4); (0x03CF, 0x03CF, 1, 0x03D7);
    (0x03D8, 0x03EE, 2, 0x03D9); (0x03F4, 0x03F4, 1, 0x03B8);
    (0x03F7, 0x03F7, 1, 0x03F8); (0x03F9, 0x03F9, 1, 0x03F2);
    (0x03FA, 0x03FA, 1, 0x03FB); (0x03FD, 0x03FF, 1, 0x037B);
    (0x0400, 0x040F, 1, 0x0450); (0x0410, 0x042F, 1, 0x0430);
    (0x0460, 0x0480, 2, 0x0461); (0x048A, 0x04BE, 2, 0x048B);
    (0x04C0, 0x04C0, 1, 0x04CF); (0x04C1, 0x04CD, 2, 0x04C2);
    (0x04D0, 0x052E, 2, 0x04D1); (0x0531, 0x0556, 1, 0x0561);
    (0x10A0, 0x10C5, 1, 0x2D00); (0x10C7, 0x10C7, 1, 0x2D27);
    (0x10CD, 0x10CD, 1, 0x2D2D); (0x13A0, 0x13EF, 1, 0xAB70);
    (0x13F0, 0x13F5, 1, 0x13F8); (0x1C90, 0x1CBA, 1, 0x10D0);
    (0x1CBD, 0x1CBF, 1, 0x10FD); (0x1E00, 0x1E94, 2, 0x1E01);
    (0x1E9E, 0x1E9E, 1, 0x00DF); (0x1EA0, 0x1EFE, 2, 0x1EA1);
    (0x1F08, 0x1F0F, 1, 0x1F00); (0x1F18, 0x1F1D, 1, 0x1F10);
    (0x1F28, 0x1F2F, 1, 0x1F20); (0x1F38, 0x1F3F, 1, 0x1F30);
    (0x1F48, 0x1F4D, 1, 0x1F40); (0x1F59, 0x1F5F, 2, 0x1F51);
    (0x1F68, 0x1F6F, 1, 0x1F60); (0x1F88, 0x1F8F, 1, 0x1F80);
    (0x1F98, 0x1F9F, 1, 0x1F90); (0x1FA8, 0x1FAF, 1, 0x1FA0);
    (0x1FB8, 0x1FB9, 1, 0x1FB0); (0x1FBA, 0x1FBB, 1, 0x1F70);
    (0x1FBC, 0x1FBC, 1, 0x1FB3); (0x1FC8, 0x1FCB, 1, 0x1F72);
    (0x1FCC, 0x1FCC, 1, 0x1FC3); (0x1FD8, 0x1FD9, 1, 0x1FD0);
    (0x1FDA, 0x1FDB, 1, 0x1F76); (0x1FE8, 0x1FE9, 1, 0x1FE0);
    (0x1FEA, 0x1FEB, 1, 0x1F7A); (0x1FEC, 0x1FEC, 1, 0x1FE5);
    (0x1FF8, 0x1FF9, 1, 0x1F78); (0x1FFA, 0x1FFB, 1, 0x1F7C);
    (0x1FFC, 0x1FFC, 1, 0x1FF3); (0x2126, 0x2126, 1, 0x03C9);
    (0x212A, 0x212A, 1, 0x006B); (0x212B, 0x212B, 1, 0x00E5);
    (0x2132, 0x2132, 1, 0x214E); (0x2160, 0x216F, 1, 0x2170);
    (0x2183, 0x2183, 1, 0x2184); (0x24B6, 0x24CF, 1, 0x24D0);
    (0x2C00, 0x2C2F, 1, 0x2C30); (0x2C60, 0x2C60, 1, 0x2C61);
    (0x2C62, 0x2C62, 1, 0x026B); (0x2C63, 0x2C63, 1, 0x1D7D);
    (0x2C64, 0x2C64, 1, 0x027D); (0x2C67, 0x2C6B, 2, 0x2C68);
    (0x2C6D, 0x2C6D, 1, 0x0251); (0x2C6E, 0x2C6E, 1, 0x0271);
    (0x2C6F, 0x2C6F, 1, 0x0250); (0x2C70, 0x2C70, 1, 0x0252);
    (0x2C72, 0x2C72, 1, 0x2C73); (0x2C75, 0x2C75, 1, 0x2C76);
    (0x2C7E, 0x2C7F, 1, 0x023F); (0x2C80, 0x2CE2, 2, 0x2C81);
    (0x2CEB, 0x2CED, 2, 0x2CEC); (0x2CF2, 0x2CF2, 1, 0x2CF3);
    (0xA640, 0xA66C, 2, 0xA641); (0xA680, 0xA69A, 2, 0xA681);
    (0xA722, 0xA72E, 2, 0xA723); (0xA732, 0xA76E, 2, 0xA733);
    (0xA779, 0xA77B, 2, 0xA77A); (0xA77D, 0xA77D, 1, 0x1D79);
    (0xA77E, 0xA786, 2, 0xA77F); (0xA78B, 0xA78B, 1, 0xA78C);
    (0xA78D, 0xA78D, 1, 0x0265); (0xA790, 0xA792, 2, 0xA791);
    (0xA796, 0xA7A8, 2, 0xA797); (0xA7AA, 0xA7AA, 1, 0x0266);
    (0xA7AB, 0xA7AB, 1, 0x025C); (0xA7AC, 0xA7AC, 1, 0x0261);
    (0xA7AD, 0xA7AD, 1, 0x026C); (0xA7AE, 0xA7AE, 1, 0x026A);
    (0xA7B0, 0xA7B0, 1, 0x029E); (0xA7B1, 0xA7B1, 1, 0x0287);
    (0xA7B2, 0xA7B2, 1, 0x029D); (0xA7B3, 0xA7B3, 1, 0xAB53);
    (0xA7B4, 0xA7C2, 2, 0xA7B5); (0xA7C4, 0xA7C4, 1, 0xA794);
    (0xA7C5, 0xA7C5, 1, 0x0282); (0xA7C6, 0xA7C6, 1, 0x1D8E);
    (0xA7C7, 0xA7C9, 2, 0xA7C8); (0xA7D0, 0xA7D0, 1, 0xA7D1);
    (0xA7D6, 0xA7D8, 2, 0xA7D7); (0xA7F5, 0xA7F5, 1, 0xA7F6);
    (0xFF21, 0xFF3A, 1, 0xFF41); (0x10400, 0x10427, 1, 0x10428);
    (0x104B0, 0x104D3, 1, 0x104D8); (0x10570, 0x1057A, 1, 0x10597);
    (0x1057C, 0x1058A, 1, 0x105A3); (0x1058C, 0x10592, 1, 0x105B3);
    (0x10594, 0x10595, 1, 0x105BB); (0x10C80, 0x10CB2, 1, 0x10CC0);
    (0x118A0, 0x118BF, 1, 0x118C0); (0x16E40, 0x16E5F, 1, 0x16E60);
    (0x1E900, 0x1E921, 1, 0x1E922) ].

Definition isdecimal (c : N) : bool := in_ranges Nd c.
Definition iscased (c : N) : bool := in_ranges Cased c.
Definition iscaseignorable (c : N) : bool := in_ranges Case_Ignorable c.

Definition in_run (c : N) (r : N * N * N * N) : bool :=
  let '(first, last, step, _) := r in
  (first <=? c) && (c <=? last) && ((c - first) mod step =? 0).

Definition tolower (c : N) : N :=
  match find (in_run c) Lowercase_Mapping with
  | Some (first, _, _, target) => target + (c - first)
  | None => c
  end.

(** Full lowercase mapping: U+0130 is the only code point whose lowercase
    is more than one code point. *)
Definition tolower_full (c : N) : list N :=
  if c =? 0x130 then [0x69; 0x307] else [tolower c].

End Unicode.

(** ** Python strings *)

Definition str := list N.

(** A literal of the source; all literals of [app.py] that the embedding
    uses are ASCII. *)
Definition lit (s : string) : str :=
  map N_of_ascii (list_ascii_of_string s).

Definition len (s : str) : Z := Z.of_nat (List.length s).

Fixpoint str_eqb (s t : str) : bool :=
  match s, t with
  | [], [] => true
  | c :: s', d :: t' => (c =? d)%N && str_eqb s' t'
  | _, _ => false
  end.

(** [x in l] for a list [l] of strings. *)
Definition str_in (x : str) (l : list str) : bool := existsb (str_eqb x) l.

(** *** [str.lower]

    CPython lowers a string code point by code point with the full lowercase
    mapping, except for capital sigma, whose image depends on its context:
    it is a final sigma when a cased code point precedes it and none follows
    it, case-ignorable code points being skipped on both sides. *)

Fixpoint first_not_ignorable (s : str) : option N :=
  match s with
  | [] => None
  | c :: s' => if Unicode.iscaseignorable c then first_not_ignorable s' else Some c
  end.

Definition cased_next (s : str) : bool :=
  match first_not_ignorable s with
  | Some c => Unicode.iscased c
  | None => false
  end.

(** [before] is the text that precedes the sigma, nearest code point first. *)
Definition handle_capital_sigma (before after : str) : N :=
  if cased_next before && negb (cased_next after) then 0x3C2%N else 0x3C3%N.

Fixpoint do_lower (before s : str) : str :=
  match s with
  | [] => []
  | c :: s' =>
      (if (c =? 0x3A3)%N then [handle_capital_sigma before s']
       else Unicode.tolower_full c) ++ do_lower (c :: before) s'
  end.

Definition lower (s : str) : str := do_lower [] s.

(** *** The regular expressions of the program

    [re.search(r"[...]", s)] with a single character class succeeds when some
    code point of [s] belongs to the class. *)

Definition re_search (class : N -> bool) (s : str) : bool := existsb class s.

Definition upper_class (c : N) : bool := ((0x41 <=? c) && (c <=? 0x5A))%N.   (* [A-Z] *)
Definition lower_class (c : N) : bool := ((0x61 <=? c) && (c <=? 0x7A))%N.   (* [a-z] *)
Definition digit_class (c : N) : bool := Unicode.isdecimal c.                (* \d *)
Definition special_class (c : N) : bool :=                                   (* [!@#$%^&*] *)
  existsb (N.eqb c) (lit "!@#$%^&*").

(** ** Python objects and the estimator *)

(** The values a caller can pass to [check_password_strength]; only [Str]
    satisfies [isinstance(password, str)]. *)
#[warnings="-register-all"] Inductive object : Type :=
| Str (s : str)
| Int (n : Z)
| Float (x : Q)
| Bool (b : bool)
| NoneObject
| Bytes (b : list N)
| List (l : list object).

Definition isinstance_str (o : object) : bool :=
  match o with
  | Str _ => true
  | _ => false
  end.

(** The dictionary returned by [zxcvbn(password)], reduced to the keys the
    program reads: [result['score']], an integer, and
    [result['feedback']['warning']], [result['feedback']['suggestions']]. *)
Module Zxcvbn.

Record feedback_dict : Type :=
  { warning : str; suggestions : list str }.

Record result_dict : Type :=
  { score : Z; feedback : feedback_dict }.

End Zxcvbn.

(** The outcome of [from zxcvbn import zxcvbn] at start-up. *)
Inductive zxcvbn_import : Type :=
| ImportError
| Imported (zxcvbn : str -> Zxcvbn.result_dict).

Definition ZXCVBN_AVAILABLE (i : zxcvbn_import) : bool :=
  match i with
  | ImportError => false
  | Imported _ => true
  end.

(** A returned value together with the passwords that were handed to the
    estimator while computing it, in call order. *)
Record traced (A : Type) : Type :=
  Traced { returned : A; zxcvbn_calls : list str }.

Arguments Traced {A} _ _.
Arguments returned {A} _.
Arguments zxcvbn_calls {A} _.

(** ** [check_password_strength] *)

Definition COMMON_PASSWORDS : list str :=
  map lit ["password"; "123456"; "12345678"; "qwerty"; "abc123"]%string.

Definition invalid_input_message : str :=
  lit "Invalid input: password must be a string.".
Definition too_common_message : str :=
  lit "This password is too common. Please choose a different one.".
Definition length_message : str :=
  lit "Password should be at least 8 characters long.".
Definition case_message : str :=
  lit "Include both uppercase and lowercase letters.".
Definition digit_message : str :=
  lit "Add at least one number (0-9).".
Definition special_message : str :=
  lit "Include at least one special character (!@#$%^&*).".

(** Truth value of a string and of a list: non-empty. *)
Definition truthy {A : Type} (l : list A) : bool :=
  match l with
  | [] => false
  | _ :: _ => true
  end.

Definition check_password_strength (env : zxcvbn_import) (password : object)
  : traced (Q * list str) :=
  match password with
  | Str password =>
      if str_in (lower password) COMMON_PASSWORDS then
        Traced (0, [too_common_message]) []
      else
        let basic_score := 0%Z in
        let feedback : list str := [] in
        let '(basic_score, feedback) :=
          if (len password >=? 8)%Z then (basic_score + 1, feedback)%Z
          else (basic_score, feedback ++ [length_message]) in
        let '(basic_score, feedback) :=
          if re_search upper_class password && re_search lower_class password
          then (basic_score + 1, feedback)%Z
          else (basic_score, feedback ++ [case_message]) in
        let '(basic_score, feedback) :=
          if re_search digit_class password then (basic_score + 1, feedback)%Z
          else (basic_score, feedback ++ [digit_message]) in
        let '(basic_score, feedback) :=
          if re_search special_class password then (basic_score + 1, feedback)%Z
          else (basic_score, feedback ++ [special_message]) in
        match env with
        | ImportError => Traced (inject_Z basic_score, feedback) []
        | Imported zxcvbn =>
            let result := zxcvbn password in
            let advanced_score := result.(Zxcvbn.score) in
            let score := inject_Z (basic_score + advanced_score) / 2 in
            let feedback :=
              if truthy result.(Zxcvbn.feedback).(Zxcvbn.warning)
              then feedback ++ [result.(Zxcvbn.feedback).(Zxcvbn.warning)] else feedback in
            let feedback :=
              if truthy result.(Zxcvbn.feedback).(Zxcvbn.suggestions)
              then feedback ++ result.(Zxcvbn.feedback).(Zxcvbn.suggestions) else feedback in
            Traced (score, feedback) [password]
        end
  | _ => Traced (0, [invalid_input_message]) []
  end.

(** The entry point [evaluate] of the interface: the pair
    [(score, feedback)] that [check_password_strength] returns. *)
Definition evaluate (env : zxcvbn_import) (password : object) : Q * list str :=
  returned (check_password_strength env password).

(** ** The caller: percentage, colour and tier *)

(** [int(x)] for a float [x]: truncation toward zero. *)
Definition int (x : Q) : Z := Z.quot (Qnum x) (Zpos (Qden x)).

(** [strength_percentage = min(int((score / 4) * 100), 100)] *)
Definition strength_percentage (score : Q) : Z :=
  Z.min (int ((score / 4) * 100)) 100.

Definition red : str := lit "#F44336".
Definition orange : str := lit "#FF9800".
Definition green : str := lit "#4CAF50".

Definition get_progress_color (percentage : Z) : str :=
  if (percentage <? 40)%Z then red
  else if (percentage <? 70)%Z then orange
  else green.

(** The three messages of the display: [st.success] (strong), [st.warning]
    (moderate) and [st.error] (weak). *)
Inductive tier : Type := Strong | Moderate | Weak.

Definition strength_tier (score : Q) : tier :=
  if Qle_bool (7 # 2) score then Strong
  else if Qle_bool (5 # 2) score then Moderate
  else Weak.

(** ** [generate_strong_password]

    [random.choice] draws an index below the length of the sequence from the
    generator and raises [IndexError] on an empty sequence.  A computation
    over the generator state either returns a value or raises. *)

Class Random (G : Type) : Type :=
  { randbelow : N -> G -> N * G;
    randbelow_lt : forall n g, (0 < n)%N -> (fst (randbelow n g) < n)%N }.

Section Generator.

Context {G : Type} `{Random G}.

Definition M (A : Type) : Type := G -> option A * G.

Definition ret {A : Type} (a : A) : M A := fun g => (Some a, g).

Definition bind {A B : Type} (m : M A) (k : A -> M B) : M B :=
  fun g =>
    match m g with
    | (Some a, g') => k a g'
    | (None, g') => (None, g')
    end.

Notation "x <- m ;; k" := (bind m (fun x => k))
  (at level 61, m at next level, right associativity).

Definition choice (seq : str) : M N :=
  fun g =>
    match seq with
    | [] => (None, g)
    | _ :: _ =>
        let (i, g') := randbelow (N.of_nat (List.length seq)) g in
        (nth_error seq (N.to_nat i), g')
    end.

Definition ascii_lowercase : str := lit "abcdefghijklmnopqrstuvwxyz".
Definition ascii_uppercase : str := lit "ABCDEFGHIJKLMNOPQRSTUVWXYZ".
Definition ascii_letters : str := ascii_lowercase ++ ascii_uppercase.
Definition digits : str := lit "0123456789".

Definition characters : str := ascii_letters ++ digits ++ lit "!@#$%^&*".

(** [''.join(random.choice(characters) for _ in range(n))] *)
Fixpoint join_choices (n : nat) : M str :=
  match n with
  | O => ret []
  | S n' =>
      c <- choice characters ;;
      rest <- join_choices n' ;;
      ret (c :: rest)
  end.

(** [range(length)] is empty for a non-positive [length]; the caller may
    leave [length] out, it is then 12. *)
Definition generate_strong_password (length : Z) : M str :=
  join_choices (Z.to_nat length).

End Generator.

(** A linear congruential generator, to run the password generator. *)
Definition lcg_next (g : N) : N :=
  ((g * 6364136223846793005 + 1442695040888963407) mod 2 ^ 64)%N.

Definition lcg_randbelow (n g : N) : N * N :=
  ((lcg_next g / 2 ^ 32) mod n, lcg_next g)%N.

#[export] Instance lcg : Random N :=
  {| randbelow := lcg_randbelow;
     randbelow_lt := fun n g (Hn : (0 < n)%N) =>
       N.mod_lt (lcg_next g / 2 ^ 32) n (N.neq_sym 0 n (N.lt_neq 0 n Hn)) |}.


(** ** The page

    What the script writes below the password field and in the generator
    section, in order.  The bar stands for the HTML of [progress_html], which
    interpolates the percentage and the colour; the tier message stands for
    the call of [st.success], [st.warning] or [st.error]. *)

Inductive element : Type :=
| Bar (width : Z) (color : str)
| TierMessage (t : tier)
| Text (text : str)
| TextInput (value : str)
| DownloadButton (data : str) (file_name : str).


Section GeneratorPage.

Context {G : Type} `{Random G}.

(** One run of the generator section: [session_state] is the value stored
    under the key [generated_password], if the key is there; [gen_length]
    is the slider and [button] tells whether the button was clicked.  The
    run returns the value stored afterwards and what it displays. *)
Definition generator_section
  (session_state : option str) (gen_length : Z) (button : bool)
  : M (str * list element) :=
  let generated_password :=
    match session_state with
    | None => []
    | Some p => p
    end in
  bind (if button then generate_strong_password gen_length
        else ret generated_password)
    (fun generated_password =>
       ret (generated_password,
            if truthy generated_password
            then [TextInput generated_password;
                  DownloadButton generated_password (lit "strong_password.txt")]
            else [])).

(** The script run once per interaction, the stored value passing from one
    run to the next. *)
Fixpoint reruns (interactions : list (Z * bool)) (session_state : option str)
  : M (option str) :=
  match interactions with
  | [] => ret session_state
  | (gen_length, button) :: rest =>
      bind (generator_section session_state gen_length button)
        (fun r => reruns rest (Some (fst r)))
  end.

End GeneratorPage.

(** A generator that reads its draws from a tape. *)
Definition tape_randbelow (n : N) (tape : list N) : N * list N :=
  match tape with
  | [] => (0%N, [])
  | i :: tape' => ((i mod n)%N, tape')
  end.

#[export] Instance tape : Random (list N) :=
  {| randbelow := tape_randbelow;
     randbelow_lt := fun n g (Hn : (0 < n)%N) =>
       match g as g0 return (fst (tape_randbelow n g0) < n)%N with
       | [] => Hn
       | i :: _ => N.mod_lt i n (N.neq_sym 0 n (N.lt_neq 0 n Hn))
       end |}.


(** * Vocabulary of the properties *)

(** ** ASCII text and case *)

Definition is_ascii (c : N) : Prop := (c < 128)%N.

(** Lowercase of an ASCII code point: [A-Z] moves to [a-z]. *)
Definition ascii_tolower (c : N) : N :=
  if upper_class c then (c + 32)%N else c.

(** Case-insensitive comparison: equality of the lowered strings.  The
    program lowers the password only, the entries of [COMMON_PASSWORDS]
    being in lowercase already. *)
Definition case_insensitive_eq (s t : str) : Prop := lower s = lower t.

(** [p] is a case mixture of [e]: the same ASCII text up to the case of its
    letters. *)
Definition same_ascii_letter (c d : N) : Prop :=
  is_ascii c /\ is_ascii d /\ ascii_tolower c = ascii_tolower d.

Definition case_mixture (p e : str) : Prop := Forall2 same_ascii_letter p e.

(** ** The estimator *)

(** A constant estimator, to run the program with the estimator present. *)
Definition constant_estimator (n : Z) (w : str) (l : list str) : zxcvbn_import :=
  Imported (fun _ =>
    {| Zxcvbn.score := n;
       Zxcvbn.feedback := {| Zxcvbn.warning := w; Zxcvbn.suggestions := l |} |}).

(** ** The rule checks *)

(** The conditions of the four [if] statements. *)
Definition length_check (s : str) : bool := (len s >=? 8)%Z.
Definition case_check (s : str) : bool :=
  re_search upper_class s && re_search lower_class s.
Definition digit_check (s : str) : bool := re_search digit_class s.
Definition special_check (s : str) : bool := re_search special_class s.

(** The checks in program order, each with the message of its failure. *)
Definition rule_checks (s : str) : list (bool * str) :=
  [ (length_check s, length_message);
    (case_check s, case_message);
    (digit_check s, digit_message);
    (special_check s, special_message) ].

(** The number of passed checks and the messages of the failed ones. *)
Definition passed (checks : list (bool * str)) : Z :=
  Z.of_nat (List.length (filter fst checks)).

Definition failures (checks : list (bool * str)) : list str :=
  map snd (filter (fun c => negb (fst c)) checks).

(** The password is a string that passes the common-password test. *)
Definition not_short_circuited (s : str) : Prop :=
  str_in (lower s) COMMON_PASSWORDS = false.

(** What the estimator adds to the feedback. *)
Definition heuristic_feedback (r : Zxcvbn.result_dict) : list str :=
  (if truthy (Zxcvbn.warning (Zxcvbn.feedback r))
   then [Zxcvbn.warning (Zxcvbn.feedback r)] else [])
  ++ Zxcvbn.suggestions (Zxcvbn.feedback r).

(** Character classes, as the specification names them. *)
Definition has_code_point (class : N -> Prop) (s : str) : Prop :=
  exists c, In c s /\ class c.

Definition uppercase_letter (c : N) : Prop := (0x41 <= c <= 0x5A)%N.
Definition lowercase_letter (c : N) : Prop := (0x61 <= c <= 0x7A)%N.
Definition digit_0_9 (c : N) : Prop := (0x30 <= c <= 0x39)%N.
Definition unicode_decimal_digit (c : N) : Prop := Unicode.isdecimal c = true.
Definition special_character (c : N) : Prop := In c (lit "!@#$%^&*").

(** ** Scores and percentages *)

(** The estimator keeps to its 0 to 4 scale. *)
Definition estimator_in_range (env : zxcvbn_import) : Prop :=
  match env with
  | ImportError => True
  | Imported zxcvbn => forall s, (0 <= Zxcvbn.score (zxcvbn s) <= 4)%Z
  end.

(** [round(x)] of Python on a float: the nearest integer, a tie going to the
    even one. *)
Definition round (x : Q) : Z :=
  let f := Qfloor x in
  match Qcompare (x - inject_Z f) (1 # 2) with
  | Lt => f
  | Eq => if Z.even f then f else (f + 1)%Z
  | Gt => (f + 1)%Z
  end.

(** The percentage of the specification: [min(round(score / 4 * 100), 100)]. *)
Definition rounded_percentage (score : Q) : Z :=
  Z.min (round (score / 4 * 100)) 100.

(** ** The generator's pool *)

(** The pool: the 26 uppercase and 26 lowercase letters, the 10 digits and
    the 8 special characters. *)
Definition pool_symbol (c : N) : Prop :=
  uppercase_letter c \/ lowercase_letter c \/ digit_0_9 c \/ special_character c.

(** The pool as a test, and a test that a list has no repetition. *)
Definition pool_class (c : N) : bool :=
  upper_class c || lower_class c || ((0x30 <=? c) && (c <=? 0x39))%N
  || special_class c.

Fixpoint distinct (l : list N) : bool :=
  match l with
  | [] => true
  | c :: l' => negb (existsb (N.eqb c) l') && distinct l'
  end.


(** ** Lowercase outside ASCII *)

(** An ASCII code point other than the letter k: what no code point outside
    ASCII lowers to. *)
Definition plain_ascii (d : N) : Prop := is_ascii d /\ d <> 0x6B%N.

Definition plain_ascii_class (d : N) : bool := ((d <? 128) && negb (d =? 0x6B))%N.

(** A run of the lowercase table lies in ASCII, or maps out of ASCII, or is
    the Kelvin sign alone, which maps to k. *)
Definition run_out_of_ascii (r : N * N * N * N) : bool :=
  let '(first, last, _, target) := r in
  ((last <? 128) || (128 <=? target)
   || ((first =? last) && (target =? 0x6B)))%N.

(** ** The generator section of the page *)

(** The value under the key [generated_password], the empty string when the
    key is not there yet. *)
Definition stored_password (session_state : option str) : str :=
  match session_state with
  | None => []
  | Some p => p
  end.

(** What the slider lets through, and what a stored password can be. *)
Definition slider_range (gen_length : Z) : Prop := (8 <= gen_length <= 24)%Z.

Definition generated_or_empty (p : str) : Prop :=
  p = [] \/ (slider_range (len p) /\ Forall pool_symbol p).

(** * Properties *)

(** ** Strings *)

Lemma str_eqb_eq (s t : str) : str_eqb s t = true <-> s = t.
Proof.
  revert t. induction s as [|c s IH]; intros [|d t]; cbn [str_eqb];
    try (split; [discriminate | discriminate]); try tauto.
  rewrite andb_true_iff, N.eqb_eq, IH. split.
  - intros [-> ->]. reflexivity.
  - intros E. injection E as -> ->. auto.
Qed.

Lemma str_in_In (x : str) (l : list str) : str_in x l = true <-> In x l.
Proof.
  unfold str_in. rewrite existsb_exists. split.
  - intros [y [Hy E]]. apply str_eqb_eq in E. subst y. exact Hy.
  - intros Hx. exists x. split; [exact Hx | apply str_eqb_eq; reflexivity].
Qed.

Lemma re_search_exists (class : N -> bool) (s : str) :
  re_search class s = true <-> exists c, In c s /\ class c = true.
Proof. apply existsb_exists. Qed.

(** ** [str.lower] on ASCII text *)

(** A property checked on the 128 ASCII code points holds of each. *)
Lemma ascii_cases (P : N -> bool) :
  forallb P (map N.of_nat (seq 0 128)) = true ->
  forall c, is_ascii c -> P c = true.
Proof.
  intros Hall c Hc. rewrite forallb_forall in Hall. apply Hall.
  apply in_map_iff. exists (N.to_nat c). split.
  - apply N2Nat.id.
  - apply in_seq. unfold is_ascii in Hc. lia.
Qed.

Lemma tolower_full_ascii (c : N) :
  is_ascii c -> Unicode.tolower_full c = [ascii_tolower c].
Proof.
  intros Hc.
  assert (E : str_eqb (Unicode.tolower_full c) [ascii_tolower c] = true).
  { revert c Hc. apply ascii_cases. vm_compute. reflexivity. }
  apply str_eqb_eq. exact E.
Qed.

Lemma do_lower_ascii (s before : str) :
  Forall is_ascii s -> do_lower before s = map ascii_tolower s.
Proof.
  intros Hs. revert before.
  induction Hs as [|c s Hc Hs IH]; intros before; cbn [do_lower map].
  - reflexivity.
  - assert (Hsigma : (c =? 0x3A3)%N = false).
    { apply N.eqb_neq. unfold is_ascii in Hc. lia. }
    rewrite Hsigma, (tolower_full_ascii c Hc), IH. reflexivity.
Qed.

Lemma lower_ascii (s : str) :
  Forall is_ascii s -> lower s = map ascii_tolower s.
Proof. apply do_lower_ascii. Qed.

Example lower_PassWord : lower (lit "PassWord") = lit "password".
Proof. vm_compute. reflexivity. Qed.

(** Capital sigma at the end of a word becomes a final sigma, elsewhere a
    plain one; the Kelvin sign becomes the letter k. *)
Example lower_sigma :
  lower [0x39F; 0x3A3; 0x20; 0x3A3; 0x39F]%N = [0x3BF; 0x3C2; 0x20; 0x3C3; 0x3BF]%N.
Proof. vm_compute. reflexivity. Qed.

Example lower_kelvin : lower [0x212A%N] = lit "k".
Proof. vm_compute. reflexivity. Qed.

(** ** Comparing with the common passwords *)

Lemma case_mixture_ascii (p e : str) :
  case_mixture p e -> Forall is_ascii p /\ Forall is_ascii e.
Proof.
  induction 1 as [|c d p e [Hc [Hd _]] _ [IHp IHe]]; split; constructor; assumption.
Qed.

Lemma case_mixture_lower (p e : str) :
  case_mixture p e -> case_insensitive_eq p e.
Proof.
  intros Hmix. unfold case_insensitive_eq.
  destruct (case_mixture_ascii p e Hmix) as [Hp He].
  rewrite (lower_ascii p Hp), (lower_ascii e He).
  induction Hmix as [|c d p' e' [_ [_ Hcd]] _ IH]; cbn [map].
  - reflexivity.
  - inversion Hp; inversion He; subst. rewrite Hcd, IH by assumption. reflexivity.
Qed.

(** The entries of [COMMON_PASSWORDS] are in lowercase already. *)
Lemma common_passwords_lowered (e : str) :
  In e COMMON_PASSWORDS -> lower e = e.
Proof.
  intros He. apply str_eqb_eq. revert e He. apply forallb_forall.
  vm_compute. reflexivity.
Qed.

Lemma common_password_test (password entry : str) :
  In entry COMMON_PASSWORDS ->
  case_insensitive_eq password entry ->
  str_in (lower password) COMMON_PASSWORDS = true.
Proof.
  intros He Heq. apply str_in_In. unfold case_insensitive_eq in Heq.
  rewrite Heq, (common_passwords_lowered entry He). exact He.
Qed.

(** ** The two early returns *)

(** C3. Whatever the estimator, a password that is not a string gets score 0
    and the single message "Invalid input: password must be a string."; the
    function returns this pair (it is total: nothing is raised) before any
    check, and the estimator is not called. *)
Theorem invalid_input_rejected (env : zxcvbn_import) (password : object) :
  isinstance_str password = false ->
  check_password_strength env password
  = Traced (0, [lit "Invalid input: password must be a string."]) []
  /\ evaluate env password = (0, [invalid_input_message]).
Proof.
  intros Hstr. unfold evaluate.
  destruct password; try discriminate Hstr; split; reflexivity.
Qed.

Lemma invalid_input_rejected_witness :
  isinstance_str (Int 12345678) = false
  /\ check_password_strength (constant_estimator 4 [] []) (Int 12345678)
     = Traced (0, [invalid_input_message]) [].
Proof.
  split; [reflexivity | ].
  apply (invalid_input_rejected (constant_estimator 4 [] []) (Int 12345678)).
  reflexivity.
Defined.

(** C2. A string that equals an entry of [COMMON_PASSWORDS] when compared
    case-insensitively, in particular any case mixture of an entry, gets
    score 0 and the single message "This password is too common. Please
    choose a different one."; the function returns before the rule checks
    and the estimator is not called. *)
Theorem common_password_rejected
  (env : zxcvbn_import) (password entry : str) :
  In entry (map lit ["password"; "123456"; "12345678"; "qwerty"; "abc123"]%string) ->
  case_insensitive_eq password entry \/ case_mixture password entry ->
  check_password_strength env (Str password)
  = Traced (0, [lit "This password is too common. Please choose a different one."]) []
  /\ evaluate env (Str password) = (0, [too_common_message]).
Proof.
  intros Hentry Heq.
  assert (Hci : case_insensitive_eq password entry).
  { destruct Heq as [Hci | Hmix]; [exact Hci | apply case_mixture_lower, Hmix]. }
  pose proof (common_password_test password entry Hentry Hci) as Htest.
  unfold evaluate, check_password_strength. rewrite Htest.
  split; reflexivity.
Qed.

Lemma case_mixture_PassWord : case_mixture (lit "PassWord") (lit "password").
Proof.
  unfold case_mixture.
  repeat (constructor; [repeat split; vm_compute; reflexivity | ]).
  constructor.
Defined.

Lemma common_password_rejected_witness :
  In (lit "password") COMMON_PASSWORDS
  /\ case_mixture (lit "PassWord") (lit "password")
  /\ check_password_strength (constant_estimator 4 [] []) (Str (lit "PassWord"))
     = Traced (0, [too_common_message]) [].
Proof.
  split; [left; reflexivity | ].
  split; [exact case_mixture_PassWord | ].
  apply (common_password_rejected
           (constant_estimator 4 [] []) (lit "PassWord") (lit "password")).
  - left. reflexivity.
  - right. exact case_mixture_PassWord.
Defined.

(** ** The rule checks *)

(** Past the early returns, the four [if] statements count the passed checks
    and collect the messages of the failed ones. *)
Lemma check_password_strength_rules (env : zxcvbn_import) (s : str) :
  not_short_circuited s ->
  check_password_strength env (Str s)
  = match env with
    | ImportError =>
        Traced (inject_Z (passed (rule_checks s)), failures (rule_checks s)) []
    | Imported zxcvbn =>
        Traced (inject_Z (passed (rule_checks s) + Zxcvbn.score (zxcvbn s)) / 2,
                failures (rule_checks s) ++ heuristic_feedback (zxcvbn s)) [s]
    end.
Proof.
  unfold not_short_circuited. intros Hnot.
  unfold check_password_strength. rewrite Hnot.
  unfold rule_checks, passed, failures, heuristic_feedback.
  unfold length_check, case_check, digit_check, special_check.
  destruct (len s >=? 8)%Z;
    destruct (re_search upper_class s && re_search lower_class s);
    destruct (re_search digit_class s);
    destruct (re_search special_class s);
    cbn [filter fst snd negb map List.length app];
    (destruct env as [|zxcvbn]; [reflexivity | ]);
    destruct (truthy (Zxcvbn.warning (Zxcvbn.feedback (zxcvbn s))));
    destruct (Zxcvbn.suggestions (Zxcvbn.feedback (zxcvbn s))) as [|x l];
    cbn [truthy app]; rewrite ?app_nil_r, <- ?app_assoc; reflexivity.
Qed.

Lemma passed_range (s : str) : (0 <= passed (rule_checks s) <= 4)%Z.
Proof.
  unfold passed, rule_checks.
  destruct (length_check s), (case_check s), (digit_check s), (special_check s);
    cbn; lia.
Qed.

Lemma failures_count (s : str) :
  (Z.of_nat (List.length (failures (rule_checks s))) = 4 - passed (rule_checks s))%Z.
Proof.
  unfold passed, failures, rule_checks.
  destruct (length_check s), (case_check s), (digit_check s), (special_check s);
    reflexivity.
Qed.

(** *** What each check decides *)

Lemma length_check_spec (s : str) : length_check s = true <-> (8 <= len s)%Z.
Proof. unfold length_check. rewrite Z.geb_le. reflexivity. Qed.

Lemma upper_class_spec (c : N) : upper_class c = true <-> uppercase_letter c.
Proof.
  unfold upper_class, uppercase_letter.
  rewrite andb_true_iff, !N.leb_le. reflexivity.
Qed.

Lemma lower_class_spec (c : N) : lower_class c = true <-> lowercase_letter c.
Proof.
  unfold lower_class, lowercase_letter.
  rewrite andb_true_iff, !N.leb_le. reflexivity.
Qed.

Lemma special_class_spec (c : N) : special_class c = true <-> special_character c.
Proof.
  unfold special_class, special_character. rewrite existsb_exists. split.
  - intros [d [Hd E]]. apply N.eqb_eq in E. subst d. exact Hd.
  - intros Hc. exists c. split; [exact Hc | apply N.eqb_refl].
Qed.

Lemma re_search_spec (class : N -> bool) (P : N -> Prop) (s : str) :
  (forall c, class c = true <-> P c) ->
  re_search class s = true <-> has_code_point P s.
Proof.
  intros Hclass. rewrite re_search_exists. unfold has_code_point.
  split; intros [c [Hin Hc]]; exists c; split; try assumption; apply Hclass, Hc.
Qed.

Lemma case_check_spec (s : str) :
  case_check s = true
  <-> has_code_point uppercase_letter s /\ has_code_point lowercase_letter s.
Proof.
  unfold case_check.
  rewrite andb_true_iff, (re_search_spec _ _ s upper_class_spec),
    (re_search_spec _ _ s lower_class_spec).
  reflexivity.
Qed.

Lemma special_check_spec (s : str) :
  special_check s = true <-> has_code_point special_character s.
Proof. apply re_search_spec, special_class_spec. Qed.

(** [\d] is the class of Unicode decimal digits. *)
Lemma digit_check_spec (s : str) :
  digit_check s = true <-> has_code_point unicode_decimal_digit s.
Proof. apply re_search_spec. intros c. reflexivity. Qed.

(** On ASCII, [\d] is [0-9]. *)
Lemma isdecimal_ascii (c : N) :
  is_ascii c -> (Unicode.isdecimal c = true <-> digit_0_9 c).
Proof.
  intros Hc.
  assert (E : Bool.eqb (Unicode.isdecimal c) ((0x30 <=? c) && (c <=? 0x39))%N = true).
  { revert c Hc. apply ascii_cases. vm_compute. reflexivity. }
  apply eqb_prop in E. rewrite E. unfold digit_0_9.
  rewrite andb_true_iff, !N.leb_le. reflexivity.
Qed.

Lemma digit_check_ascii (s : str) :
  Forall is_ascii s ->
  (digit_check s = true <-> has_code_point digit_0_9 s).
Proof.
  intros Hs. rewrite digit_check_spec. rewrite Forall_forall in Hs.
  split; intros [c [Hin Hc]]; exists c; split; try assumption;
    apply (isdecimal_ascii c (Hs c Hin)), Hc.
Qed.

(** ** The rule score and the combined result *)

(** The program on the examples of the specification, without estimator. *)
Example evaluate_Abcdefg1 :
  evaluate ImportError (Str (lit "Abcdefg1!")) = (4, []).
Proof. vm_compute. reflexivity. Qed.

Example evaluate_abc :
  evaluate ImportError (Str (lit "abc"))
  = (0, [length_message; case_message; digit_message; special_message]).
Proof. vm_compute. reflexivity. Qed.

Example evaluate_abcdefgh :
  evaluate ImportError (Str (lit "abcdefgh"))
  = (1, [case_message; digit_message; special_message]).
Proof. vm_compute. reflexivity. Qed.

(** The basic score is the number of passed checks among: at least 8 code
    points; an [A-Z] and an [a-z] letter; a Unicode decimal digit; a
    character of [!@#$%^&*].  Each failed check leaves its message, in
    program order. *)
Lemma rule_score_counts_checks (s : str) :
  not_short_circuited s ->
  evaluate ImportError (Str s)
  = (inject_Z (passed (rule_checks s)), failures (rule_checks s))
  /\ (length_check s = true <-> (8 <= len s)%Z)
  /\ (case_check s = true
      <-> has_code_point uppercase_letter s /\ has_code_point lowercase_letter s)
  /\ (digit_check s = true <-> has_code_point unicode_decimal_digit s)
  /\ (special_check s = true <-> has_code_point special_character s).
Proof.
  intros Hnot. unfold evaluate.
  rewrite (check_password_strength_rules ImportError s Hnot).
  split; [reflexivity | ].
  split; [apply length_check_spec | ].
  split; [apply case_check_spec | ].
  split; [apply digit_check_spec | apply special_check_spec].
Qed.

(** On ASCII passwords the digit check is the presence of one of 0-9. *)
Lemma rule_score_counts_checks_ascii (s : str) :
  Forall is_ascii s ->
  not_short_circuited s ->
  evaluate ImportError (Str s)
  = (inject_Z (passed (rule_checks s)), failures (rule_checks s))
  /\ (digit_check s = true <-> has_code_point digit_0_9 s).
Proof.
  intros Hs Hnot. split.
  - apply (rule_score_counts_checks s Hnot).
  - apply digit_check_ascii, Hs.
Qed.

(** C4. The digit check is [re.search(r"\d", password)], and [\d] matches
    every Unicode decimal digit, not only 0-9.  The password "abcdefgh"
    followed by U+0663 (ARABIC-INDIC DIGIT THREE) has nine code points, no
    uppercase letter, none of 0-9 and no special character: the count of
    passed checks of the claim is 1, with the messages for case, digit and
    special.  The program returns 2 and leaves out the message "Add at least
    one number (0-9).". *)
Theorem digit_check_accepts_non_ascii_digit :
  let password := lit "abcdefgh" ++ [0x663%N] in
  not_short_circuited password
  /\ (8 <= len password)%Z
  /\ ~ has_code_point uppercase_letter password
  /\ ~ has_code_point digit_0_9 password
  /\ ~ has_code_point special_character password
  /\ evaluate ImportError (Str password) = (2, [case_message; special_message]).
Proof.
  assert (Hnone : forall (class : N -> bool) (P : N -> Prop) (s : str),
             (forall c, class c = true <-> P c) ->
             re_search class s = false -> ~ has_code_point P s).
  { intros class P s Hclass Hfalse Hhas.
    apply (re_search_spec class P s Hclass) in Hhas. congruence. }
  cbv zeta. split; [vm_compute; reflexivity | ].
  split; [vm_compute; discriminate | ].
  split; [apply (Hnone upper_class _ _ upper_class_spec); vm_compute; reflexivity | ].
  split.
  { apply (Hnone (fun c => (0x30 <=? c) && (c <=? 0x39))%N).
    - intros c. unfold digit_0_9. rewrite andb_true_iff, !N.leb_le. reflexivity.
    - vm_compute. reflexivity. }
  split; [apply (Hnone special_class _ _ special_class_spec); vm_compute; reflexivity | ].
  vm_compute. reflexivity.
Qed.

(** C5. For a string that is not short-circuited, the score is the basic
    score when the estimator is absent and the average of the basic and the
    advanced score when it is present; the feedback is the rule feedback in
    check order, then the estimator's warning if it is not empty, then its
    suggestions in their order. *)
Theorem combined_score_and_feedback (s : str) :
  not_short_circuited s ->
  let basic_score := passed (rule_checks s) in
  let rule_feedback := failures (rule_checks s) in
  evaluate ImportError (Str s) = (inject_Z basic_score, rule_feedback)
  /\ forall zxcvbn : str -> Zxcvbn.result_dict,
       let advanced_score := Zxcvbn.score (zxcvbn s) in
       let warning := Zxcvbn.warning (Zxcvbn.feedback (zxcvbn s)) in
       let suggestions := Zxcvbn.suggestions (Zxcvbn.feedback (zxcvbn s)) in
       fst (evaluate (Imported zxcvbn) (Str s))
       == (inject_Z basic_score + inject_Z advanced_score) / 2
       /\ snd (evaluate (Imported zxcvbn) (Str s))
          = rule_feedback
            ++ match warning with [] => [] | _ :: _ => [warning] end
            ++ suggestions.
Proof.
  intros Hnot. cbv zeta. unfold evaluate. split.
  - rewrite (check_password_strength_rules ImportError s Hnot). reflexivity.
  - intros zxcvbn.
    rewrite (check_password_strength_rules (Imported zxcvbn) s Hnot).
    cbn [returned fst snd]. split.
    + rewrite inject_Z_plus. reflexivity.
    + unfold heuristic_feedback.
      destruct (Zxcvbn.warning (Zxcvbn.feedback (zxcvbn s))); reflexivity.
Qed.

Lemma combined_score_and_feedback_witness :
  not_short_circuited (lit "abcdefgh")
  /\ evaluate ImportError (Str (lit "abcdefgh"))
     = (1, [case_message; digit_message; special_message])
  /\ fst (evaluate (constant_estimator 2 (lit "weak") [lit "longer"])
            (Str (lit "abcdefgh"))) == 3 # 2
  /\ snd (evaluate (constant_estimator 2 (lit "weak") [lit "longer"])
            (Str (lit "abcdefgh")))
     = [case_message; digit_message; special_message; lit "weak"; lit "longer"].
Proof.
  assert (Hnot : not_short_circuited (lit "abcdefgh"))
    by (vm_compute; reflexivity).
  split; [exact Hnot | ].
  split; [exact (proj1 (combined_score_and_feedback (lit "abcdefgh") Hnot)) | ].
  exact (proj2 (combined_score_and_feedback (lit "abcdefgh") Hnot)
           (fun _ => {| Zxcvbn.score := 2;
                        Zxcvbn.feedback :=
                          {| Zxcvbn.warning := lit "weak";
                             Zxcvbn.suggestions := [lit "longer"] |} |})).
Defined.

(** C10. For a string that is not short-circuited, the rule checks leave
    [4 - basic_score] messages; they are the whole feedback when the
    estimator is absent, so that the feedback is then empty exactly when the
    score is 4, and the head of the feedback when it is present. *)
Theorem feedback_count_invariant (s : str) :
  not_short_circuited s ->
  exists (basic_score : Z) (rule_feedback : list str),
    evaluate ImportError (Str s) = (inject_Z basic_score, rule_feedback)
    /\ (Z.of_nat (List.length rule_feedback) = 4 - basic_score)%Z
    /\ (snd (evaluate ImportError (Str s)) = []
        <-> fst (evaluate ImportError (Str s)) == 4)
    /\ forall zxcvbn, exists heuristic,
         snd (evaluate (Imported zxcvbn) (Str s)) = rule_feedback ++ heuristic.
Proof.
  intros Hnot. exists (passed (rule_checks s)), (failures (rule_checks s)).
  unfold evaluate.
  rewrite (check_password_strength_rules ImportError s Hnot). cbn [returned fst snd].
  split; [reflexivity | ].
  split; [apply failures_count | ].
  split.
  - pose proof (failures_count s) as Hcount.
    unfold Qeq. cbn [Qnum Qden inject_Z]. split.
    + intros Hnil. rewrite Hnil in Hcount. cbn [List.length] in Hcount. lia.
    + intros Hfour. destruct (failures (rule_checks s)) as [|m l]; [reflexivity | ].
      cbn [List.length] in Hcount. lia.
  - intros zxcvbn.
    rewrite (check_password_strength_rules (Imported zxcvbn) s Hnot).
    exists (heuristic_feedback (zxcvbn s)). reflexivity.
Qed.

Lemma feedback_count_invariant_witness :
  not_short_circuited (lit "Abcdefg1!")
  /\ exists (basic_score : Z) (rule_feedback : list str),
       evaluate ImportError (Str (lit "Abcdefg1!"))
       = (inject_Z basic_score, rule_feedback)
       /\ (Z.of_nat (List.length rule_feedback) = 4 - basic_score)%Z
       /\ (snd (evaluate ImportError (Str (lit "Abcdefg1!"))) = []
           <-> fst (evaluate ImportError (Str (lit "Abcdefg1!"))) == 4)
       /\ forall zxcvbn, exists heuristic,
            snd (evaluate (Imported zxcvbn) (Str (lit "Abcdefg1!")))
            = rule_feedback ++ heuristic.
Proof.
  split; [vm_compute; reflexivity | ].
  apply (feedback_count_invariant (lit "Abcdefg1!")).
  vm_compute. reflexivity.
Defined.

(** ** Percentage, colour and tier *)

Lemma score_range (env : zxcvbn_import) (password : object) :
  estimator_in_range env ->
  0 <= fst (evaluate env password) <= 4.
Proof.
  intros Hrange. unfold evaluate.
  destruct password as [s| | | | | |];
    try (cbn; split; discriminate).
  destruct (str_in (lower s) COMMON_PASSWORDS) eqn:Hcommon.
  - unfold check_password_strength. rewrite Hcommon. cbn. split; discriminate.
  - rewrite (check_password_strength_rules env s Hcommon).
    pose proof (passed_range s) as Hbasic.
    destruct env as [|zxcvbn]; cbn [returned fst].
    + unfold Qle. cbn [Qnum Qden inject_Z]. lia.
    + specialize (Hrange s).
      unfold Qle, Qdiv, Qmult, Qinv. cbn [Qnum Qden inject_Z]. lia.
Qed.

(** On a score that is not negative, [int] is the floor. *)
Lemma int_floor (x : Q) : 0 <= x -> int x = Qfloor x.
Proof.
  destruct x as [n d]. unfold Qle, int, Qfloor. cbn [Qnum Qden].
  intros Hn. apply Z.quot_div_nonneg; lia.
Qed.

Lemma percentage_argument_range (score : Q) :
  0 <= score <= 4 -> 0 <= score / 4 * 100 <= 100.
Proof.
  destruct score as [n d]. unfold Qle, Qdiv, Qmult, Qinv. cbn [Qnum Qden].
  intros [Hlo Hhi]. split; lia.
Qed.

Lemma percentage_floor (score : Q) :
  0 <= score <= 4 ->
  strength_percentage score = Qfloor (score / 4 * 100)
  /\ (0 <= strength_percentage score <= 100)%Z.
Proof.
  intros Hscore. destruct (percentage_argument_range score Hscore) as [Hlo Hhi].
  unfold strength_percentage. rewrite (int_floor _ Hlo).
  pose proof (Qfloor_resp_le _ _ Hlo) as Hlo'.
  pose proof (Qfloor_resp_le _ _ Hhi) as Hhi'.
  change (Qfloor 0) with 0%Z in Hlo'. change (Qfloor 100) with 100%Z in Hhi'.
  split; lia.
Qed.

(** C1, as stated, fails.  With an estimator that answers 2, "abcdefgh"
    (basic score 1) gets the score 1.5, that is 37.5 percent: the program
    truncates it to 37, rounding gives 38. *)
Lemma percentage_is_not_rounded :
  let env := constant_estimator 2 [] [] in
  let score := fst (evaluate env (Str (lit "abcdefgh"))) in
  estimator_in_range env
  /\ score == 3 # 2
  /\ strength_percentage score = 37%Z
  /\ rounded_percentage score = 38%Z
  /\ strength_percentage score <> Z.min (round (score / 4 * 100)) 100.
Proof.
  cbv zeta. split; [intros s; cbn; lia | ].
  split; [vm_compute; reflexivity | ].
  split; [vm_compute; reflexivity | ].
  split; [vm_compute; reflexivity | ].
  vm_compute. discriminate.
Qed.

(** C1, amended.  For every score that [evaluate] returns, the estimator
    keeping to its 0 to 4 scale, the percentage is
    [min(floor(score / 4 * 100), 100)] and lies in [0,100]; score 4 gives
    100 and score 0 gives 0. *)
Theorem percentage_of_score (env : zxcvbn_import) (password : object) :
  estimator_in_range env ->
  let score := fst (evaluate env password) in
  strength_percentage score = Z.min (Qfloor (score / 4 * 100)) 100
  /\ (0 <= strength_percentage score <= 100)%Z
  /\ (score == 4 -> strength_percentage score = 100%Z)
  /\ (score == 0 -> strength_percentage score = 0%Z).
Proof.
  intros Hrange score.
  pose proof (score_range env password Hrange) as Hscore. fold score in Hscore.
  destruct (percentage_floor score Hscore) as [Hfloor Hbounds].
  split; [lia | ]. split; [exact Hbounds | ].
  split; intros E; rewrite Hfloor;
    assert (E' : score / 4 * 100 == _) by (rewrite E; reflexivity);
    rewrite (Qfloor_comp _ _ E'); reflexivity.
Qed.

Lemma percentage_of_score_witness :
  estimator_in_range (constant_estimator 2 [] [])
  /\ strength_percentage
       (fst (evaluate (constant_estimator 2 [] []) (Str (lit "abcdefgh"))))
     = Z.min (Qfloor (fst (evaluate (constant_estimator 2 [] [])
                             (Str (lit "abcdefgh"))) / 4 * 100)) 100.
Proof.
  split; [intros s; cbn; lia | ].
  apply (percentage_of_score (constant_estimator 2 [] []) (Str (lit "abcdefgh"))).
  intros s. cbn. lia.
Defined.

Lemma strength_tier_spec (score : Q) :
  (strength_tier score = Strong <-> 7 # 2 <= score)
  /\ (strength_tier score = Moderate <-> 5 # 2 <= score /\ score < 7 # 2)
  /\ (strength_tier score = Weak <-> score < 5 # 2).
Proof.
  destruct score as [n d].
  unfold strength_tier, Qle_bool, Qle, Qlt. cbn [Qnum Qden].
  destruct (7 * Z.pos d <=? n * 2)%Z eqn:H7;
    destruct (5 * Z.pos d <=? n * 2)%Z eqn:H5;
    try (apply Z.leb_le in H7); try (apply Z.leb_le in H5);
    try (apply Z.leb_gt in H7); try (apply Z.leb_gt in H5);
    repeat split; intros; try discriminate; try reflexivity; lia.
Qed.

(** C8. For every score that [evaluate] returns, the tier is Strong exactly
    when the score is at least 3.5, Moderate exactly when it is at least 2.5
    and below 3.5, and Weak exactly when it is below 2.5. *)
Theorem tier_thresholds (env : zxcvbn_import) (password : object) :
  let score := fst (evaluate env password) in
  (strength_tier score = Strong <-> 7 # 2 <= score)
  /\ (strength_tier score = Moderate <-> 5 # 2 <= score /\ score < 7 # 2)
  /\ (strength_tier score = Weak <-> score < 5 # 2).
Proof. intros score. apply strength_tier_spec. Qed.

Lemma colours_distinct : red <> orange /\ red <> green /\ orange <> green.
Proof. repeat split; vm_compute; discriminate. Qed.

(** C9. For every percentage in [0,100], the colour of the bar is red
    exactly below 40, orange exactly from 40 to 69, and green exactly from
    70 on. *)
Theorem progress_color_thresholds (percentage : Z) :
  (0 <= percentage <= 100)%Z ->
  (get_progress_color percentage = lit "#F44336" <-> (percentage < 40)%Z)
  /\ (get_progress_color percentage = lit "#FF9800"
      <-> (40 <= percentage <= 69)%Z)
  /\ (get_progress_color percentage = lit "#4CAF50" <-> (70 <= percentage)%Z).
Proof.
  intros _. destruct colours_distinct as [Hro [Hrg Hog]].
  fold red orange green. unfold get_progress_color.
  destruct (percentage <? 40)%Z eqn:H40; destruct (percentage <? 70)%Z eqn:H70;
    try (apply Z.ltb_lt in H40); try (apply Z.ltb_lt in H70);
    try (apply Z.ltb_ge in H40); try (apply Z.ltb_ge in H70);
    repeat split; intros; try congruence; try lia; try reflexivity.
Qed.

Lemma progress_color_thresholds_witness :
  (0 <= 55 <= 100)%Z
  /\ (get_progress_color 55 = lit "#FF9800" <-> (40 <= 55 <= 69)%Z).
Proof.
  split; [lia | ].
  apply (progress_color_thresholds 55). lia.
Defined.

(** ** The password generator *)

Lemma pool_class_spec (c : N) : pool_class c = true <-> pool_symbol c.
Proof.
  unfold pool_class, pool_symbol.
  rewrite !orb_true_iff, upper_class_spec, lower_class_spec, special_class_spec.
  unfold digit_0_9. rewrite andb_true_iff, !N.leb_le. tauto.
Qed.

Lemma pool_symbol_ascii (c : N) : pool_symbol c -> is_ascii c.
Proof.
  unfold pool_symbol, uppercase_letter, lowercase_letter, digit_0_9,
    special_character, is_ascii.
  intros [H | [H | [H | H]]]; try lia.
  cbn in H. lia.
Qed.

Lemma distinct_NoDup (l : list N) : distinct l = true -> NoDup l.
Proof.
  induction l as [|c l IH]; cbn [distinct]; intros Hd.
  - constructor.
  - apply andb_true_iff in Hd. destruct Hd as [Hc Hl]. constructor.
    + intros Hin. apply negb_true_iff in Hc.
      assert (Ht : existsb (N.eqb c) l = true).
      { apply existsb_exists. exists c. split; [exact Hin | apply N.eqb_refl]. }
      congruence.
    + apply IH, Hl.
Qed.

(** [characters] holds exactly the 70 symbols of the pool, once each. *)
Lemma characters_pool :
  List.length characters = 70%nat
  /\ NoDup characters
  /\ forall c, In c characters <-> pool_symbol c.
Proof.
  split; [reflexivity | ].
  split; [apply distinct_NoDup; vm_compute; reflexivity | ].
  intros c. split.
  - intros Hin. apply pool_class_spec. revert c Hin. apply forallb_forall.
    vm_compute. reflexivity.
  - intros Hpool.
    assert (E : implb (pool_class c) (existsb (N.eqb c) characters) = true).
    { apply (ascii_cases (fun c => implb (pool_class c)
                                     (existsb (N.eqb c) characters))).
      - vm_compute. reflexivity.
      - apply pool_symbol_ascii, Hpool. }
    apply pool_class_spec in Hpool. rewrite Hpool in E. cbn [implb] in E.
    apply existsb_exists in E. destruct E as [d [Hd E]].
    apply N.eqb_eq in E. subst d. exact Hd.
Qed.

Section GeneratorProperties.

Context {G : Type} `{Random G}.

(** A draw from a sequence that is not empty returns one of its elements. *)
Lemma choice_In (seq : str) (g : G) :
  seq <> [] ->
  exists c g', choice seq g = (Some c, g') /\ In c seq.
Proof.
  intros Hseq. destruct seq as [|a seq]; [contradiction | ].
  unfold choice.
  pose proof (randbelow_lt (N.of_nat (List.length (a :: seq))) g) as Hlt.
  destruct (randbelow (N.of_nat (List.length (a :: seq))) g) as [i g'].
  cbn [fst] in Hlt.
  assert (Hi : (N.to_nat i < List.length (a :: seq))%nat).
  { cbn [List.length] in *. lia. }
  destruct (nth_error (a :: seq) (N.to_nat i)) as [c|] eqn:Hnth.
  - exists c, g'. split; [reflexivity | ]. apply nth_error_In with (1 := Hnth).
  - apply nth_error_None in Hnth. lia.
Qed.

Lemma join_choices_spec (n : nat) (g : G) :
  exists s g',
    join_choices n g = (Some s, g')
    /\ List.length s = n
    /\ Forall (fun c => In c characters) s.
Proof.
  revert g. induction n as [|n IH]; intros g.
  - exists [], g. repeat split. constructor.
  - assert (Hpool : characters <> []) by discriminate.
    destruct (choice_In characters g Hpool) as [c [g1 [Hc Hin]]].
    destruct (IH g1) as [s [g2 [Hs [Hlen Hall]]]].
    exists (c :: s), g2. cbn [join_choices]. unfold bind at 1. rewrite Hc.
    unfold bind at 1. rewrite Hs. unfold ret.
    split; [reflexivity | ].
    split; [cbn [List.length]; congruence | constructor; assumption].
Qed.

(** C6. For every integer [n >= 1] and every state of the random generator,
    [generate_strong_password n] returns a string of length exactly [n]
    whose characters all belong to the pool of 70 symbols: uppercase
    letters, lowercase letters, digits and the characters of [!@#$%^&*]. *)
Theorem generated_password_length_and_pool (n : Z) (g : G) :
  (1 <= n)%Z ->
  exists password g',
    generate_strong_password n g = (Some password, g')
    /\ len password = n
    /\ Forall pool_symbol password
    /\ Forall (fun c => In c characters) password
    /\ List.length characters = 70%nat
    /\ NoDup characters.
Proof.
  intros Hn. unfold generate_strong_password.
  destruct (join_choices_spec (Z.to_nat n) g) as [s [g' [Hs [Hlen Hall]]]].
  destruct characters_pool as [H70 [Hnodup Hpool]].
  exists s, g'. split; [exact Hs | ].
  split; [unfold len; lia | ].
  split.
  - apply Forall_forall. intros c Hc. apply Hpool.
    rewrite Forall_forall in Hall. apply Hall, Hc.
  - repeat split; assumption.
Qed.

(** C7. For every integer [length <= 0], [generate_strong_password] returns
    the empty string: nothing is raised and nothing is drawn from the random
    generator. *)
Theorem generated_password_empty (length : Z) (g : G) :
  (length <= 0)%Z ->
  generate_strong_password length g = (Some [], g).
Proof.
  intros Hlength. unfold generate_strong_password.
  replace (Z.to_nat length) with 0%nat by lia. reflexivity.
Qed.

End GeneratorProperties.

(** A run of the generator on the linear congruential source. *)
Example generate_12 :
  exists password,
    fst (generate_strong_password 12 (2024%N : N)) = Some password
    /\ len password = 12%Z.
Proof. eexists. split; vm_compute; reflexivity. Qed.

Lemma generated_password_length_and_pool_witness :
  (1 <= 12)%Z
  /\ exists password g',
       generate_strong_password 12 (2024%N : N) = (Some password, g')
       /\ len password = 12%Z
       /\ Forall pool_symbol password
       /\ Forall (fun c => In c characters) password
       /\ List.length characters = 70%nat
       /\ NoDup characters.
Proof.
  split; [lia | ].
  apply (generated_password_length_and_pool 12 2024%N). lia.
Defined.

Lemma generated_password_empty_witness :
  (-3 <= 0)%Z /\ generate_strong_password (-3) (2024%N : N) = (Some [], 2024%N).
Proof.
  split; [lia | ].
  apply (generated_password_empty (-3) 2024%N). lia.
Defined.

(** * Further properties of the program *)

(** ** The common-password test, exactly *)

Lemma tolower_non_ascii (c : N) :
  (128 <= c)%N ->
  (128 <= Unicode.tolower c)%N \/ Unicode.tolower c = 0x6B%N.
Proof.
  intros Hc. unfold Unicode.tolower.
  destruct (find (Unicode.in_run c) Unicode.Lowercase_Mapping)
    as [[[[first last] step] target]|] eqn:Hfind; [ | left; exact Hc].
  apply find_some in Hfind. destruct Hfind as [Hin Hrun].
  assert (Hok : run_out_of_ascii (first, last, step, target) = true).
  { revert Hin. generalize (first, last, step, target). apply forallb_forall.
    vm_compute. reflexivity. }
  unfold Unicode.in_run in Hrun. unfold run_out_of_ascii in Hok.
  apply andb_true_iff in Hrun. destruct Hrun as [Hrun _].
  apply andb_true_iff in Hrun. destruct Hrun as [Hfirst Hlast].
  apply N.leb_le in Hfirst. apply N.leb_le in Hlast.
  apply orb_true_iff in Hok. destruct Hok as [Hok | Hkelvin].
  - apply orb_true_iff in Hok. destruct Hok as [Hlow | Hhigh].
    + apply N.ltb_lt in Hlow. lia.
    + apply N.leb_le in Hhigh. left. lia.
  - apply andb_true_iff in Hkelvin. destruct Hkelvin as [Hone Htarget].
    apply N.eqb_eq in Hone. apply N.eqb_eq in Htarget. right. lia.
Qed.

(** Outside ASCII, the lowercase of a code point holds a code point that is
    not a plain ASCII one. *)
Lemma tolower_full_non_ascii (c : N) :
  (128 <= c)%N -> ~ Forall plain_ascii (Unicode.tolower_full c).
Proof.
  intros Hc Hall. unfold Unicode.tolower_full in Hall.
  destruct (c =? 0x130)%N.
  - inversion Hall as [|? ? _ Htail]. inversion Htail as [|? ? [H307 _] _].
    unfold is_ascii in H307. lia.
  - inversion Hall as [|? ? [Hlt Hk] _]. unfold is_ascii in Hlt.
    destruct (tolower_non_ascii c Hc) as [Hhigh | Hkelvin]; [lia | contradiction].
Qed.

Lemma do_lower_plain_ascii (s before : str) :
  Forall plain_ascii (do_lower before s) -> Forall is_ascii s.
Proof.
  revert before. induction s as [|c s IH]; intros before Hall.
  - constructor.
  - cbn [do_lower] in Hall. apply Forall_app in Hall. destruct Hall as [Hc Hs].
    constructor; [ | apply (IH (c :: before)), Hs].
    unfold is_ascii. destruct (N.lt_ge_cases c 128) as [Hlt | Hge]; [exact Hlt | ].
    exfalso. destruct (c =? 0x3A3)%N.
    + inversion Hc as [|? ? [Hsigma _] _]. unfold is_ascii in Hsigma.
      unfold handle_capital_sigma in Hsigma.
      destruct (cased_next before && negb (cased_next s)); lia.
    + apply (tolower_full_non_ascii c Hge), Hc.
Qed.

Lemma ascii_tolower_ascii (c : N) : is_ascii c -> is_ascii (ascii_tolower c).
Proof.
  unfold is_ascii, ascii_tolower, upper_class. intros Hc.
  destruct ((0x41 <=? c) && (c <=? 0x5A))%N eqn:Hup; [ | exact Hc].
  apply andb_true_iff in Hup. destruct Hup as [_ Hup]. apply N.leb_le in Hup. lia.
Qed.

Lemma ascii_tolower_idempotent (c : N) :
  ascii_tolower (ascii_tolower c) = ascii_tolower c.
Proof.
  unfold ascii_tolower. destruct (upper_class c) eqn:Hup.
  - assert (Hnot : upper_class (c + 32) = false); [ | rewrite Hnot; reflexivity].
    unfold upper_class in *. apply andb_true_iff in Hup. destruct Hup as [Hlo _].
    apply N.leb_le in Hlo. apply andb_false_iff. right. apply N.leb_gt. lia.
  - rewrite Hup. reflexivity.
Qed.

Lemma case_mixture_of_lowered (s : str) :
  Forall is_ascii s -> case_mixture s (map ascii_tolower s).
Proof.
  induction 1 as [|c s Hc _ IH]; cbn [map]; constructor; [ | exact IH].
  split; [exact Hc | ]. split; [apply ascii_tolower_ascii, Hc | ].
  symmetry. apply ascii_tolower_idempotent.
Qed.

Lemma common_test_case_mixture (password : str) :
  str_in (lower password) COMMON_PASSWORDS = true ->
  case_mixture password (lower password).
Proof.
  intros Htest. apply str_in_In in Htest.
  assert (Hplain : Forall plain_ascii (lower password)).
  { assert (Hb : forallb plain_ascii_class (lower password) = true).
    { revert Htest. generalize (lower password). apply forallb_forall.
      vm_compute. reflexivity. }
    apply Forall_forall. intros d Hd. rewrite forallb_forall in Hb.
    specialize (Hb d Hd). unfold plain_ascii_class in Hb.
    apply andb_true_iff in Hb. destruct Hb as [Hlt Hk].
    apply N.ltb_lt in Hlt. apply negb_true_iff, N.eqb_neq in Hk.
    split; assumption. }
  pose proof (do_lower_plain_ascii password [] Hplain) as Hascii.
  rewrite (lower_ascii password Hascii).
  apply case_mixture_of_lowered, Hascii.
Qed.

(** The test [password.lower() in COMMON_PASSWORDS] succeeds exactly on the
    ASCII case mixtures of the five entries: no string with a code point
    outside ASCII is taken for a common password. *)
Theorem common_password_test_exact (password : str) :
  str_in (lower password) COMMON_PASSWORDS = true
  <-> exists entry, In entry COMMON_PASSWORDS /\ case_mixture password entry.
Proof.
  split.
  - intros Htest. exists (lower password). split.
    + apply str_in_In, Htest.
    + apply common_test_case_mixture, Htest.
  - intros [entry [Hentry Hmix]].
    apply (common_password_test password entry Hentry).
    apply case_mixture_lower, Hmix.
Qed.

(** Look-alikes outside ASCII pass the test: "password" written with two
    long s (U+017F), and "qwerty" with a fullwidth q (U+FF51). *)
Example look_alikes_not_common :
  not_short_circuited [0x70; 0x61; 0x17F; 0x17F; 0x77; 0x6F; 0x72; 0x64]%N
  /\ not_short_circuited ([0xFF51%N] ++ lit "werty").
Proof. split; vm_compute; reflexivity. Qed.

Lemma not_short_circuited_long (s : str) :
  (9 <= len s)%Z -> not_short_circuited s.
Proof.
  intros Hlen. unfold not_short_circuited.
  destruct (str_in (lower s) COMMON_PASSWORDS) eqn:Htest; [ | reflexivity].
  exfalso. pose proof (common_test_case_mixture s Htest) as Hmix.
  apply Forall2_length in Hmix. apply str_in_In in Htest.
  assert (Hshort : (List.length (lower s) <=? 8)%nat = true).
  { revert Htest. generalize (lower s). apply forallb_forall.
    vm_compute. reflexivity. }
  apply Nat.leb_le in Hshort. unfold len in Hlen. lia.
Qed.

(** A password of nine code points or more is never taken for a common one:
    it passes the length check and scores at least 1 without the estimator,
    and the estimator, when there is one, is consulted. *)
Theorem long_password_never_common (env : zxcvbn_import) (s : str) :
  (9 <= len s)%Z ->
  not_short_circuited s
  /\ 1 <= fst (evaluate ImportError (Str s))
  /\ ~ In length_message (snd (evaluate ImportError (Str s)))
  /\ (ZXCVBN_AVAILABLE env = true ->
      zxcvbn_calls (check_password_strength env (Str s)) = [s]).
Proof.
  intros Hlen. pose proof (not_short_circuited_long s Hlen) as Hnot.
  split; [exact Hnot | ]. unfold evaluate.
  rewrite (check_password_strength_rules ImportError s Hnot),
    (check_password_strength_rules env s Hnot).
  cbn [returned fst snd].
  assert (Hcheck : length_check s = true) by (apply length_check_spec; lia).
  unfold passed, failures, rule_checks. rewrite Hcheck.
  split; [ | split].
  - destruct (case_check s), (digit_check s), (special_check s);
      vm_compute; discriminate.
  - destruct (case_check s), (digit_check s), (special_check s);
      cbn [filter fst snd negb map In]; intros Hin;
      repeat (destruct Hin as [Hin | Hin]; [vm_compute in Hin; discriminate Hin | ]);
      exact Hin.
  - destruct env as [|zxcvbn]; [discriminate | reflexivity].
Qed.

Lemma long_password_never_common_witness :
  (9 <= len (lit "password1"))%Z
  /\ not_short_circuited (lit "password1").
Proof.
  assert (Hlen : (9 <= len (lit "password1"))%Z) by (vm_compute; discriminate).
  split; [exact Hlen | ].
  exact (proj1 (long_password_never_common ImportError (lit "password1") Hlen)).
Defined.

(** ** The rule score *)

(** The basic score counts the passed checks, the digit check being the
    presence of a Unicode decimal digit: one of 0-9 always passes it, and so
    does a decimal digit of any other script. *)
Theorem rule_score_characterised (s : str) :
  not_short_circuited s ->
  evaluate ImportError (Str s)
  = (inject_Z (passed (rule_checks s)), failures (rule_checks s))
  /\ (length_check s = true <-> (8 <= len s)%Z)
  /\ (case_check s = true
      <-> has_code_point uppercase_letter s /\ has_code_point lowercase_letter s)
  /\ (digit_check s = true <-> has_code_point unicode_decimal_digit s)
  /\ (has_code_point digit_0_9 s -> digit_check s = true)
  /\ (special_check s = true <-> has_code_point special_character s).
Proof.
  intros Hnot. unfold evaluate.
  rewrite (check_password_strength_rules ImportError s Hnot).
  split; [reflexivity | ].
  split; [apply length_check_spec | ].
  split; [apply case_check_spec | ].
  split; [apply digit_check_spec | ].
  split; [ | apply special_check_spec].
  intros [c [Hin Hc]]. apply digit_check_spec. exists c. split; [exact Hin | ].
  assert (Hascii : is_ascii c) by (unfold digit_0_9 in Hc; unfold is_ascii; lia).
  apply (isdecimal_ascii c Hascii), Hc.
Qed.

Lemma rule_score_characterised_witness :
  not_short_circuited (lit "abcdefgh" ++ [0x663%N])
  /\ evaluate ImportError (Str (lit "abcdefgh" ++ [0x663%N]))
     = (2, [case_message; special_message]).
Proof.
  assert (Hnot : not_short_circuited (lit "abcdefgh" ++ [0x663%N]))
    by (vm_compute; reflexivity).
  split; [exact Hnot | ].
  exact (proj1 (rule_score_characterised (lit "abcdefgh" ++ [0x663%N]) Hnot)).
Defined.

Lemma len_app (s t : str) : len (s ++ t) = (len s + len t)%Z.
Proof. unfold len. rewrite length_app. lia. Qed.

Lemma len_nonneg (s : str) : (0 <= len s)%Z.
Proof. unfold len. lia. Qed.

Lemma re_search_app_l (class : N -> bool) (s t : str) :
  re_search class s = true -> re_search class (s ++ t) = true.
Proof.
  intros Hs. unfold re_search in *. rewrite existsb_app, Hs. reflexivity.
Qed.

Lemma length_check_app (s t : str) :
  length_check s = true -> length_check (s ++ t) = true.
Proof.
  rewrite !length_check_spec, len_app. pose proof (len_nonneg t). lia.
Qed.

Lemma case_check_app (s t : str) :
  case_check s = true -> case_check (s ++ t) = true.
Proof.
  unfold case_check. rewrite !andb_true_iff.
  intros [Hu Hl]. split; apply re_search_app_l; assumption.
Qed.

Lemma rule_checks_app (s t : str) :
  (passed (rule_checks s) <= passed (rule_checks (s ++ t)))%Z
  /\ incl (failures (rule_checks (s ++ t))) (failures (rule_checks s)).
Proof.
  pose proof (length_check_app s t) as Hlen.
  pose proof (case_check_app s t) as Hcase.
  pose proof (re_search_app_l digit_class s t) as Hdigit.
  pose proof (re_search_app_l special_class s t) as Hspecial.
  unfold passed, failures, rule_checks, digit_check, special_check in *.
  destruct (length_check s);
    [rewrite (Hlen eq_refl) | destruct (length_check (s ++ t))];
    (destruct (case_check s);
     [rewrite (Hcase eq_refl) | destruct (case_check (s ++ t))]);
    (destruct (re_search digit_class s);
     [rewrite (Hdigit eq_refl) | destruct (re_search digit_class (s ++ t))]);
    (destruct (re_search special_class s);
     [rewrite (Hspecial eq_refl) | destruct (re_search special_class (s ++ t))]);
    cbn [filter fst snd negb map List.length];
    (split; [lia | intros m Hm; cbn [In] in *; tauto]).
Qed.

(** Without the estimator, characters added at the end of a password never
    lower its score, as long as the longer password is not a common one;
    and they never bring a new message when the shorter one is not a common
    password either. *)
Theorem appending_never_lowers_score (s t : str) :
  not_short_circuited (s ++ t) ->
  fst (evaluate ImportError (Str s)) <= fst (evaluate ImportError (Str (s ++ t)))
  /\ (not_short_circuited s ->
      incl (snd (evaluate ImportError (Str (s ++ t))))
           (snd (evaluate ImportError (Str s)))).
Proof.
  intros Hst. destruct (rule_checks_app s t) as [Hscore Hmsg].
  unfold evaluate at 2 3.
  rewrite (check_password_strength_rules ImportError (s ++ t) Hst).
  cbn [returned fst snd]. split.
  - unfold evaluate. destruct (str_in (lower s) COMMON_PASSWORDS) eqn:Hs.
    + unfold check_password_strength. rewrite Hs. cbn [returned fst].
      pose proof (passed_range (s ++ t)).
      unfold Qle. cbn [Qnum Qden inject_Z]. lia.
    + rewrite (check_password_strength_rules ImportError s Hs).
      cbn [returned fst]. unfold Qle. cbn [Qnum Qden inject_Z]. lia.
  - intros Hs. unfold evaluate.
    rewrite (check_password_strength_rules ImportError s Hs). exact Hmsg.
Qed.

Lemma appending_never_lowers_score_witness :
  not_short_circuited (lit "abcdefgh" ++ lit "1!")
  /\ fst (evaluate ImportError (Str (lit "abcdefgh")))
     <= fst (evaluate ImportError (Str (lit "abcdefgh" ++ lit "1!"))).
Proof.
  assert (Hnot : not_short_circuited (lit "abcdefgh" ++ lit "1!"))
    by (vm_compute; reflexivity).
  split; [exact Hnot | ].
  exact (proj1 (appending_never_lowers_score (lit "abcdefgh") (lit "1!") Hnot)).
Defined.

(** The hypothesis is needed: one more letter can complete a common
    password. *)
Example appending_completes_common_password :
  evaluate ImportError (Str (lit "Qwert"))
  = (1, [length_message; digit_message; special_message])
  /\ evaluate ImportError (Str (lit "Qwert" ++ lit "y")) = (0, [too_common_message]).
Proof. split; vm_compute; reflexivity. Qed.

Lemma re_search_Permutation (class : N -> bool) (s t : str) :
  Permutation s t -> re_search class s = re_search class t.
Proof.
  unfold re_search. induction 1 as [|c s t _ IH|c d s|s t u _ IH1 _ IH2].
  - reflexivity.
  - cbn [existsb]. rewrite IH. reflexivity.
  - cbn [existsb]. destruct (class c), (class d); reflexivity.
  - rewrite IH1. exact IH2.
Qed.

(** The rule checks look at the length and at which characters occur, not
    at their order: two passwords with the same characters in another order,
    neither a common password, get the same result without the estimator. *)
Theorem rule_score_ignores_order (s t : str) :
  Permutation s t ->
  not_short_circuited s ->
  not_short_circuited t ->
  evaluate ImportError (Str s) = evaluate ImportError (Str t).
Proof.
  intros Hperm Hs Ht. unfold evaluate.
  rewrite (check_password_strength_rules ImportError s Hs),
    (check_password_strength_rules ImportError t Ht).
  assert (E : rule_checks s = rule_checks t); [ | rewrite E; reflexivity].
  unfold rule_checks, length_check, case_check, digit_check, special_check, len.
  rewrite (Permutation_length Hperm),
    (re_search_Permutation upper_class s t Hperm),
    (re_search_Permutation lower_class s t Hperm),
    (re_search_Permutation digit_class s t Hperm),
    (re_search_Permutation special_class s t Hperm).
  reflexivity.
Qed.

Lemma rule_score_ignores_order_witness :
  Permutation (lit "Ab1!") (lit "!1bA")
  /\ not_short_circuited (lit "Ab1!")
  /\ not_short_circuited (lit "!1bA")
  /\ evaluate ImportError (Str (lit "Ab1!")) = evaluate ImportError (Str (lit "!1bA")).
Proof.
  assert (Hperm : Permutation (lit "Ab1!") (lit "!1bA")).
  { change (Permutation [65; 98; 49; 33]%N (rev [65; 98; 49; 33]%N)).
    apply Permutation_rev. }
  assert (Hs : not_short_circuited (lit "Ab1!")) by (vm_compute; reflexivity).
  assert (Ht : not_short_circuited (lit "!1bA")) by (vm_compute; reflexivity).
  split; [exact Hperm | ]. split; [exact Hs | ]. split; [exact Ht | ].
  exact (rule_score_ignores_order (lit "Ab1!") (lit "!1bA") Hperm Hs Ht).
Defined.

(** ** The combined score and the estimator *)

(** Whatever the input, the estimator keeping to its 0 to 4 scale, the score
    is a whole number of halves between 0 and 4; without the estimator it is
    one of the integers 0 to 4. *)
Theorem score_is_half_integer (env : zxcvbn_import) (password : object) :
  estimator_in_range env ->
  (exists k : Z, (0 <= k <= 8)%Z /\ fst (evaluate env password) == k # 2)
  /\ (ZXCVBN_AVAILABLE env = false ->
      exists b : Z, (0 <= b <= 4)%Z /\ fst (evaluate env password) = inject_Z b).
Proof.
  intros Hrange. unfold evaluate.
  assert (Hzero : forall r : traced (Q * list str),
             fst (returned r) = 0 ->
             (exists k : Z, (0 <= k <= 8)%Z /\ fst (returned r) == k # 2)
             /\ (ZXCVBN_AVAILABLE env = false ->
                 exists b : Z, (0 <= b <= 4)%Z /\ fst (returned r) = inject_Z b)).
  { intros r Hr. rewrite Hr. split.
    - exists 0%Z. split; [lia | reflexivity].
    - intros _. exists 0%Z. split; [lia | reflexivity]. }
  destruct password as [s| | | | | |]; try (apply Hzero; reflexivity).
  destruct (str_in (lower s) COMMON_PASSWORDS) eqn:Hcommon.
  - apply Hzero. unfold check_password_strength. rewrite Hcommon. reflexivity.
  - rewrite (check_password_strength_rules env s Hcommon).
    pose proof (passed_range s) as Hbasic.
    destruct env as [|zxcvbn]; cbn [returned fst ZXCVBN_AVAILABLE].
    + split.
      * exists (2 * passed (rule_checks s))%Z. split; [lia | ].
        unfold Qeq. cbn [Qnum Qden inject_Z]. lia.
      * intros _. exists (passed (rule_checks s)). split; [lia | reflexivity].
    + specialize (Hrange s). split; [ | discriminate].
      exists (passed (rule_checks s) + Zxcvbn.score (zxcvbn s))%Z.
      split; [lia | ].
      unfold Qeq, Qdiv, Qmult, Qinv. cbn [Qnum Qden inject_Z]. lia.
Qed.

Lemma score_is_half_integer_witness :
  estimator_in_range (constant_estimator 2 [] [])
  /\ exists k : Z,
       (0 <= k <= 8)%Z
       /\ fst (evaluate (constant_estimator 2 [] []) (Str (lit "abcdefgh")))
          == k # 2.
Proof.
  assert (Hrange : estimator_in_range (constant_estimator 2 [] []))
    by (intros s; cbn; lia).
  split; [exact Hrange | ].
  exact (proj1 (score_is_half_integer (constant_estimator 2 [] [])
                  (Str (lit "abcdefgh")) Hrange)).
Defined.

(** The estimator is called at most once, and only with a string that is
    not a common password, which it receives as typed (not lowered). *)
Theorem estimator_call_discipline (env : zxcvbn_import) (password : object) :
  (List.length (zxcvbn_calls (check_password_strength env password)) <= 1)%nat
  /\ forall s,
       In s (zxcvbn_calls (check_password_strength env password))
       <-> password = Str s
           /\ ZXCVBN_AVAILABLE env = true
           /\ not_short_circuited s.
Proof.
  assert (Hnone : forall r : traced (Q * list str),
             zxcvbn_calls r = [] ->
             (forall s, ~ (password = Str s
                           /\ ZXCVBN_AVAILABLE env = true
                           /\ not_short_circuited s)) ->
             (List.length (zxcvbn_calls r) <= 1)%nat
             /\ forall s, In s (zxcvbn_calls r)
                          <-> password = Str s
                              /\ ZXCVBN_AVAILABLE env = true
                              /\ not_short_circuited s).
  { intros r Hr Hno. rewrite Hr. split; [cbn; lia | ].
    intros s. split; [intros [] | intros Hs; exact (Hno s Hs)]. }
  destruct password as [p| | | | | |];
    try (apply Hnone; [reflexivity | intros s [E _]; discriminate E]).
  destruct (str_in (lower p) COMMON_PASSWORDS) eqn:Hcommon.
  - apply Hnone.
    + unfold check_password_strength. rewrite Hcommon. reflexivity.
    + intros s [E [_ Hs]]. injection E as <-.
      unfold not_short_circuited in Hs. congruence.
  - destruct env as [|zxcvbn].
    + apply Hnone.
      * rewrite (check_password_strength_rules ImportError p Hcommon). reflexivity.
      * intros s [_ [Hav _]]. discriminate Hav.
    + rewrite (check_password_strength_rules (Imported zxcvbn) p Hcommon).
      cbn [zxcvbn_calls List.length In ZXCVBN_AVAILABLE]. split; [lia | ].
      intros s. split.
      * intros [E | []]. subst s. repeat split. exact Hcommon.
      * intros [E _]. injection E as <-. left. reflexivity.
Qed.

Lemma failures_nil (s : str) :
  failures (rule_checks s) = [] <-> passed (rule_checks s) = 4%Z.
Proof.
  pose proof (failures_count s) as Hcount. split.
  - intros Hnil. rewrite Hnil in Hcount. cbn [List.length] in Hcount. lia.
  - intros Hfour. destruct (failures (rule_checks s)); [reflexivity | ].
    cbn [List.length] in Hcount. lia.
Qed.

(** [evaluate] returns an empty feedback list exactly when the password is a
    string, is not a common password, passes the four checks, and the
    estimator, if there is one, has no warning and no suggestion for it. *)
Theorem feedback_empty_iff (env : zxcvbn_import) (password : object) :
  snd (evaluate env password) = []
  <-> exists s,
        password = Str s
        /\ not_short_circuited s
        /\ passed (rule_checks s) = 4%Z
        /\ match env with
           | ImportError => True
           | Imported zxcvbn =>
               Zxcvbn.warning (Zxcvbn.feedback (zxcvbn s)) = []
               /\ Zxcvbn.suggestions (Zxcvbn.feedback (zxcvbn s)) = []
           end.
Proof.
  unfold evaluate.
  destruct password as [p| | | | | |];
    try (cbn; split; [discriminate | intros [s [E _]]; discriminate E]).
  destruct (str_in (lower p) COMMON_PASSWORDS) eqn:Hcommon.
  - unfold check_password_strength. rewrite Hcommon. cbn [returned snd]. split.
    + discriminate.
    + intros [s [E [Hs _]]]. injection E as <-.
      unfold not_short_circuited in Hs. congruence.
  - rewrite (check_password_strength_rules env p Hcommon).
    destruct env as [|zxcvbn]; cbn [returned snd].
    + rewrite failures_nil. split.
      * intros Hfour. exists p. repeat split; assumption.
      * intros [s [E [_ [Hfour _]]]]. injection E as <-. exact Hfour.
    + unfold heuristic_feedback. split.
      * intros Hnil. apply app_eq_nil in Hnil. destruct Hnil as [Hrules Hheur].
        apply app_eq_nil in Hheur. destruct Hheur as [Hw Hsug].
        exists p. split; [reflexivity | ]. split; [exact Hcommon | ].
        split; [apply failures_nil, Hrules | ].
        split; [ | exact Hsug].
        destruct (Zxcvbn.warning (Zxcvbn.feedback (zxcvbn p))); [reflexivity | ].
        discriminate Hw.
      * intros [s [E [_ [Hfour [Hw Hsug]]]]]. injection E as <-.
        apply failures_nil in Hfour. rewrite Hfour, Hw, Hsug. reflexivity.
Qed.

(** With the estimator, the tier follows the sum of the basic and the
    advanced score: Strong from 7 on, Moderate at 5 and 6, Weak up to 4.  On
    the 0 to 4 scale, Strong therefore needs at least three passed checks and
    an advanced score of at least 3, and a password that passes no check, or
    that the estimator scores 0, is Weak. *)
Theorem tier_with_estimator (zxcvbn : str -> Zxcvbn.result_dict) (s : str) :
  not_short_circuited s ->
  let basic_score := passed (rule_checks s) in
  let advanced_score := Zxcvbn.score (zxcvbn s) in
  let shown := strength_tier (fst (evaluate (Imported zxcvbn) (Str s))) in
  (shown = Strong <-> (7 <= basic_score + advanced_score)%Z)
  /\ (shown = Moderate <-> (5 <= basic_score + advanced_score <= 6)%Z)
  /\ (shown = Weak <-> (basic_score + advanced_score <= 4)%Z)
  /\ ((0 <= advanced_score <= 4)%Z ->
      (shown = Strong -> (3 <= basic_score)%Z /\ (3 <= advanced_score)%Z)
      /\ (basic_score = 0%Z \/ advanced_score = 0%Z -> shown = Weak)).
Proof.
  intros Hnot. cbv zeta. unfold evaluate.
  rewrite (check_password_strength_rules (Imported zxcvbn) s Hnot).
  cbn [returned fst].
  pose proof (passed_range s) as Hbasic.
  set (k := (passed (rule_checks s) + Zxcvbn.score (zxcvbn s))%Z) in *.
  destruct (strength_tier_spec (inject_Z k / 2)) as [Hstrong [Hmoderate Hweak]].
  unfold Qle, Qlt, Qdiv, Qmult, Qinv in Hstrong, Hmoderate, Hweak.
  cbn [Qnum Qden inject_Z] in Hstrong, Hmoderate, Hweak.
  split; [rewrite Hstrong; lia | ].
  split; [rewrite Hmoderate; lia | ].
  split; [rewrite Hweak; lia | ].
  intros Hadv. split.
  - rewrite Hstrong. subst k. lia.
  - rewrite Hweak. subst k. lia.
Qed.

Lemma tier_with_estimator_witness :
  not_short_circuited (lit "Abcdefg1!")
  /\ (strength_tier
        (fst (evaluate (constant_estimator 0 [] []) (Str (lit "Abcdefg1!"))))
      = Weak
      <-> (passed (rule_checks (lit "Abcdefg1!")) + 0 <= 4)%Z).
Proof.
  assert (Hnot : not_short_circuited (lit "Abcdefg1!"))
    by (vm_compute; reflexivity).
  split; [exact Hnot | ].
  exact (proj1 (proj2 (proj2
    (tier_with_estimator
       (fun _ => {| Zxcvbn.score := 0;
                    Zxcvbn.feedback :=
                      {| Zxcvbn.warning := []; Zxcvbn.suggestions := [] |} |})
       (lit "Abcdefg1!") Hnot)))).
Defined.

(** ** What the page shows *)

Lemma get_progress_color_cases (percentage : Z) :
  (get_progress_color percentage = red <-> (percentage < 40)%Z)
  /\ (get_progress_color percentage = orange <-> (40 <= percentage < 70)%Z)
  /\ (get_progress_color percentage = green <-> (70 <= percentage)%Z).
Proof.
  destruct colours_distinct as [Hro [Hrg Hog]]. unfold get_progress_color.
  destruct (percentage <? 40)%Z eqn:H40; destruct (percentage <? 70)%Z eqn:H70;
    try (apply Z.ltb_lt in H40); try (apply Z.ltb_lt in H70);
    try (apply Z.ltb_ge in H40); try (apply Z.ltb_ge in H70);
    repeat split; intros; try congruence; try lia; try reflexivity.
Qed.

Lemma int_monotone (x y : Q) : x <= y -> (int x <= int y)%Z.
Proof.
  destruct x as [a b], y as [c d]. unfold int. cbn [Qnum Qden]. intros Hle.
  assert (Hfloor : forall (n m : Z) (p q : positive),
             n # p <= m # q -> (n / Z.pos p <= m / Z.pos q)%Z).
  { intros n m p q Hnm. exact (Qfloor_resp_le _ _ Hnm). }
  assert (Hneg : forall (n : Z) (p : positive),
             (n < 0)%Z -> (Z.quot n (Z.pos p) = - (- n / Z.pos p))%Z).
  { intros n p Hn. rewrite <- (Z.opp_involutive n) at 1.
    rewrite Z.quot_opp_l by lia. rewrite Z.quot_div_nonneg by lia. reflexivity. }
  unfold Qle in Hle. cbn [Qnum Qden] in Hle.
  destruct (Z.lt_ge_cases a 0) as [Ha | Ha]; destruct (Z.lt_ge_cases c 0) as [Hc | Hc].
  - rewrite (Hneg a b Ha), (Hneg c d Hc).
    assert (Hopp : - c # d <= - a # b) by (unfold Qle; cbn [Qnum Qden]; lia).
    pose proof (Hfloor _ _ _ _ Hopp). lia.
  - rewrite (Hneg a b Ha), (Z.quot_div_nonneg c (Z.pos d)) by lia.
    assert (0 <= - a / Z.pos b)%Z by (apply Z.div_pos; lia).
    assert (0 <= c / Z.pos d)%Z by (apply Z.div_pos; lia).
    lia.
  - exfalso. nia.
  - rewrite !Z.quot_div_nonneg by lia. apply Hfloor. exact Hle.
Qed.

Lemma percentage_argument_monotone (q r : Q) :
  q <= r -> q / 4 * 100 <= r / 4 * 100.
Proof.
  destruct q as [a b], r as [c d]. unfold Qle, Qdiv, Qmult, Qinv.
  cbn [Qnum Qden]. intros Hle. lia.
Qed.

(** A higher score never gives a shorter bar, and never a colour further
    from green. *)
Theorem percentage_monotone (q r : Q) :
  q <= r ->
  (strength_percentage q <= strength_percentage r)%Z
  /\ (get_progress_color (strength_percentage q) = green ->
      get_progress_color (strength_percentage r) = green)
  /\ (get_progress_color (strength_percentage r) = red ->
      get_progress_color (strength_percentage q) = red).
Proof.
  intros Hle.
  pose proof (int_monotone _ _ (percentage_argument_monotone q r Hle)) as Hint.
  assert (Hpct : (strength_percentage q <= strength_percentage r)%Z)
    by (unfold strength_percentage; lia).
  destruct (get_progress_color_cases (strength_percentage q)) as [Hqr [_ Hqg]].
  destruct (get_progress_color_cases (strength_percentage r)) as [Hrr [_ Hrg]].
  split; [exact Hpct | ]. split.
  - rewrite Hqg, Hrg. lia.
  - rewrite Hqr, Hrr. lia.
Qed.

Lemma percentage_monotone_witness :
  3 # 2 <= 3
  /\ (strength_percentage (3 # 2) <= strength_percentage 3)%Z.
Proof.
  assert (Hle : 3 # 2 <= 3) by (unfold Qle; cbn; lia).
  split; [exact Hle | ].
  exact (proj1 (percentage_monotone (3 # 2) 3 Hle)).
Defined.




(** Without the estimator each passed check is worth a quarter of the bar.
    The bar is red up to one passed check, orange at two, green from three
    on; the message is Weak up to two, Moderate at three, Strong at four.
    So an orange bar always comes with the Weak message, and the Moderate
    message always with a green bar. *)
Theorem display_without_estimator (s : str) :
  not_short_circuited s ->
  let basic_score := passed (rule_checks s) in
  let score := fst (evaluate ImportError (Str s)) in
  let percentage := strength_percentage score in
  percentage = (25 * basic_score)%Z
  /\ (get_progress_color percentage = red <-> (basic_score <= 1)%Z)
  /\ (get_progress_color percentage = orange <-> basic_score = 2%Z)
  /\ (get_progress_color percentage = green <-> (3 <= basic_score)%Z)
  /\ (strength_tier score = Weak <-> (basic_score <= 2)%Z)
  /\ (strength_tier score = Moderate <-> basic_score = 3%Z)
  /\ (strength_tier score = Strong <-> basic_score = 4%Z).
Proof.
  intros Hnot. cbv zeta. unfold evaluate.
  rewrite (check_password_strength_rules ImportError s Hnot). cbn [returned fst].
  pose proof (passed_range s) as Hbasic.
  set (b := passed (rule_checks s)) in *.
  assert (Hpct : strength_percentage (inject_Z b) = (25 * b)%Z).
  { assert (Hb : (b = 0 \/ b = 1 \/ b = 2 \/ b = 3 \/ b = 4)%Z) by lia.
    destruct Hb as [-> | [-> | [-> | [-> | ->]]]]; reflexivity. }
  rewrite Hpct.
  destruct (get_progress_color_cases (25 * b)) as [Hred [Horange Hgreen]].
  destruct (strength_tier_spec (inject_Z b)) as [Hstrong [Hmoderate Hweak]].
  unfold Qle, Qlt in Hstrong, Hmoderate, Hweak.
  cbn [Qnum Qden inject_Z] in Hstrong, Hmoderate, Hweak.
  split; [reflexivity | ].
  split; [rewrite Hred; lia | ].
  split; [rewrite Horange; lia | ].
  split; [rewrite Hgreen; lia | ].
  split; [rewrite Hweak; lia | ].
  split; [rewrite Hmoderate; lia | rewrite Hstrong; lia].
Qed.

Lemma display_without_estimator_witness :
  not_short_circuited (lit "Abcdefgh1")
  /\ strength_percentage (fst (evaluate ImportError (Str (lit "Abcdefgh1"))))
     = (25 * passed (rule_checks (lit "Abcdefgh1")))%Z.
Proof.
  assert (Hnot : not_short_circuited (lit "Abcdefgh1"))
    by (vm_compute; reflexivity).
  split; [exact Hnot | ].
  exact (proj1 (display_without_estimator (lit "Abcdefgh1") Hnot)).
Defined.

(** ** The generator and the page around it *)

Section GeneratorComposition.

Context {G : Type} `{Random G}.

Lemma join_choices_add (n m : nat) (g : G) :
  join_choices (n + m) g
  = bind (join_choices n)
      (fun s1 => bind (join_choices m) (fun s2 => ret (s1 ++ s2))) g.
Proof.
  revert g. induction n as [|n IH]; intros g.
  - cbn [Nat.add join_choices]. unfold bind, ret.
    destruct (join_choices m g) as [[s2|] g']; reflexivity.
  - cbn [Nat.add join_choices]. unfold bind, ret.
    destruct (choice characters g) as [[c|] g1]; [ | reflexivity].
    rewrite IH. unfold bind, ret.
    destruct (join_choices n g1) as [[s1|] g2]; [ | reflexivity].
    destruct (join_choices m g2) as [[s2|] g3]; reflexivity.
Qed.

(** Generating [n + m] characters is generating [n], then [m] from the state
    the generator is left in, and joining the two strings. *)
Theorem generate_in_two_parts (n m : Z) (g : G) :
  (0 <= n)%Z -> (0 <= m)%Z ->
  generate_strong_password (n + m) g
  = bind (generate_strong_password n)
      (fun s1 => bind (generate_strong_password m)
                   (fun s2 => ret (s1 ++ s2))) g.
Proof.
  intros Hn Hm. unfold generate_strong_password.
  rewrite Z2Nat.inj_add by assumption. apply join_choices_add.
Qed.

Lemma pool_strings_ascii (s : str) :
  Forall (fun c => In c characters) s -> Forall pool_symbol s.
Proof.
  intros Hall. apply Forall_forall. intros c Hc.
  apply (proj2 (proj2 characters_pool)).
  rewrite Forall_forall in Hall. apply Hall, Hc.
Qed.

(** A generated password of nine characters or more, such as one of the
    default length 12, is accepted by [check_password_strength]: it is not
    taken for a common password and scores at least 1 without the
    estimator. *)
Theorem generated_password_accepted (n : Z) (g : G) :
  (9 <= n)%Z ->
  exists password g',
    generate_strong_password n g = (Some password, g')
    /\ not_short_circuited password
    /\ 1 <= fst (evaluate ImportError (Str password))
    /\ snd (evaluate ImportError (Str password)) <> [too_common_message].
Proof.
  intros Hn. unfold generate_strong_password.
  destruct (join_choices_spec (Z.to_nat n) g) as [s [g' [Hs [Hlen _]]]].
  exists s, g'. split; [exact Hs | ].
  assert (Hlong : (9 <= len s)%Z) by (unfold len; lia).
  pose proof (not_short_circuited_long s Hlong) as Hnot.
  split; [exact Hnot | ]. unfold evaluate.
  rewrite (check_password_strength_rules ImportError s Hnot).
  cbn [returned fst snd].
  assert (Hcheck : length_check s = true) by (apply length_check_spec; lia).
  unfold passed, failures, rule_checks. rewrite Hcheck.
  destruct (case_check s), (digit_check s), (special_check s);
    (split; vm_compute; discriminate).
Qed.

Lemma generator_section_click
  (session_state : option str) (gen_length : Z) (g : G) :
  slider_range gen_length ->
  exists p g',
    generator_section session_state gen_length true g
    = (Some (p, [TextInput p; DownloadButton p (lit "strong_password.txt")]), g')
    /\ len p = gen_length /\ Forall pool_symbol p.
Proof.
  intros Hrange. unfold slider_range in Hrange.
  unfold generator_section, generate_strong_password.
  destruct (join_choices_spec (Z.to_nat gen_length) g) as [s [g' [Hs [Hlen Hall]]]].
  exists s, g'. unfold bind. rewrite Hs. unfold ret.
  assert (Hlen' : len s = gen_length) by (unfold len; lia).
  destruct s as [|c s]; [cbn in Hlen'; lia | ].
  split; [reflexivity | ]. split; [exact Hlen' | apply pool_strings_ascii, Hall].
Qed.

Lemma reruns_invariant (interactions : list (Z * bool)) :
  Forall (fun i => slider_range (fst i)) interactions ->
  forall (session_state : option str) (g : G),
    generated_or_empty (stored_password session_state) ->
    exists session_state' g',
      reruns interactions session_state g = (Some session_state', g')
      /\ generated_or_empty (stored_password session_state')
      /\ (stored_password session_state' = []
          <-> stored_password session_state = []
              /\ Forall (fun i => snd i = false) interactions).
Proof.
  induction 1 as [|[gen_length button] rest Hrange _ IH];
    intros session_state g Hinv.
  - exists session_state, g. split; [reflexivity | ]. split; [exact Hinv | ].
    split; [intros E; split; [exact E | constructor] | intros [E _]; exact E].
  - cbn [fst] in Hrange. cbn [reruns]. destruct button.
    + destruct (generator_section_click session_state gen_length g Hrange)
        as [p [g1 [Hrun [Hlen Hpool]]]].
      unfold bind at 1. rewrite Hrun. cbn [fst].
      assert (Hp : generated_or_empty (stored_password (Some p))).
      { right. cbn [stored_password]. rewrite Hlen. split; assumption. }
      destruct (IH (Some p) g1 Hp) as [st' [g' [Hrest [Hinv' Hiff]]]].
      exists st', g'. split; [exact Hrest | ]. split; [exact Hinv' | ].
      rewrite Hiff. cbn [stored_password]. split.
      * intros [E _]. subst p. unfold slider_range in Hrange. cbn in Hlen. lia.
      * intros [_ Hnever]. inversion Hnever as [|? ? Hfalse _].
        cbn [snd] in Hfalse. discriminate Hfalse.
    + unfold bind at 1. unfold generator_section. unfold bind at 1. unfold ret at 1.
      fold (stored_password session_state). unfold ret at 1. cbn [fst].
      destruct (IH (Some (stored_password session_state)) g Hinv)
        as [st' [g' [Hrest [Hinv' Hiff]]]].
      exists st', g'. split; [exact Hrest | ]. split; [exact Hinv' | ].
      rewrite Hiff. cbn [stored_password]. split.
      * intros [E Hnever]. split; [exact E | constructor; [reflexivity | exact Hnever]].
      * intros [E Hnever]. split; [exact E | ]. inversion Hnever. assumption.
Qed.

(** Over any sequence of runs of the page in a fresh session, the slider
    within its range 8 to 24: the script does not raise, and the stored
    password is either still empty, exactly when the button was never
    clicked, or a string of 8 to 24 characters of the pool. *)
Theorem session_keeps_generated_password
  (interactions : list (Z * bool)) (g : G) :
  Forall (fun i => slider_range (fst i)) interactions ->
  exists session_state' g',
    reruns interactions None g = (Some session_state', g')
    /\ generated_or_empty (stored_password session_state')
    /\ (stored_password session_state' = []
        <-> Forall (fun i => snd i = false) interactions).
Proof.
  intros Hrange.
  destruct (reruns_invariant interactions Hrange None g) as [st' [g' [Hrun [Hinv Hiff]]]].
  { left. reflexivity. }
  exists st', g'. split; [exact Hrun | ]. split; [exact Hinv | ].
  rewrite Hiff. cbn [stored_password]. tauto.
Qed.

End GeneratorComposition.

Lemma generate_in_two_parts_witness :
  (0 <= 5)%Z /\ (0 <= 7)%Z
  /\ generate_strong_password (5 + 7) (2024%N : N)
     = bind (generate_strong_password 5)
         (fun s1 => bind (generate_strong_password 7)
                      (fun s2 => ret (s1 ++ s2))) (2024%N : N).
Proof.
  split; [lia | ]. split; [lia | ].
  apply (generate_in_two_parts 5 7 2024%N); lia.
Defined.

Lemma generated_password_accepted_witness :
  (9 <= 12)%Z
  /\ exists password g',
       generate_strong_password 12 (2024%N : N) = (Some password, g')
       /\ not_short_circuited password
       /\ 1 <= fst (evaluate ImportError (Str password))
       /\ snd (evaluate ImportError (Str password)) <> [too_common_message].
Proof.
  split; [lia | ].
  apply (generated_password_accepted 12 2024%N). lia.
Defined.

Lemma session_keeps_generated_password_witness :
  Forall (fun i => slider_range (fst i)) [(12%Z, false); (16%Z, true); (8%Z, false)]
  /\ exists session_state' g',
       reruns [(12%Z, false); (16%Z, true); (8%Z, false)] None (2024%N : N)
       = (Some session_state', g')
       /\ generated_or_empty (stored_password session_state')
       /\ (stored_password session_state' = []
           <-> Forall (fun i => snd i = false)
                 [(12%Z, false); (16%Z, true); (8%Z, false)]).
Proof.
  assert (Hrange : Forall (fun i => slider_range (fst i))
                     [(12%Z, false); (16%Z, true); (8%Z, false)]).
  { repeat constructor; cbn; lia. }
  split; [exact Hrange | ].
  exact (session_keeps_generated_password
           [(12%Z, false); (16%Z, true); (8%Z, false)] 2024%N Hrange).
Defined.

(** *** Every string of the pool can come out *)

Lemma choice_tape (seq : str) (i : nat) (c : N) (rest : list N) :
  nth_error seq i = Some c ->
  choice seq (N.of_nat i :: rest) = (Some c, rest).
Proof.
  intros Hnth.
  assert (Hi : (i < List.length seq)%nat) by (apply nth_error_Some; congruence).
  destruct seq as [|a seq]; [cbn in Hi; lia | ].
  unfold choice. cbn [randbelow tape tape_randbelow].
  rewrite N.mod_small by lia. rewrite Nat2N.id. rewrite Hnth. reflexivity.
Qed.

Lemma join_choices_tape (s : str) :
  Forall (fun c => In c characters) s ->
  exists draws : list N, join_choices (List.length s) draws = (Some s, []).
Proof.
  induction 1 as [|c s Hc _ [draws IH]].
  - exists []. reflexivity.
  - apply In_nth_error in Hc. destruct Hc as [i Hi].
    exists (N.of_nat i :: draws). cbn [List.length join_choices].
    unfold bind at 1. rewrite (choice_tape characters i c draws Hi).
    unfold bind at 1. rewrite IH. reflexivity.
Qed.

(** The generator promises nothing beyond the length and the pool: for every
    string over the pool there are draws of [random.choice] on which
    [generate_strong_password] returns that string.  A result may thus have
    no digit, or no special character, or be a common password. *)
Theorem generator_reaches_every_pool_string (s : str) :
  Forall pool_symbol s ->
  exists draws : list N,
    generate_strong_password (len s) draws = (Some s, []).
Proof.
  intros Hpool.
  assert (Hall : Forall (fun c => In c characters) s).
  { apply Forall_forall. intros c Hc. apply (proj2 (proj2 characters_pool)).
    rewrite Forall_forall in Hpool. apply Hpool, Hc. }
  destruct (join_choices_tape s Hall) as [draws Hdraws].
  exists draws. unfold generate_strong_password, len.
  rewrite Nat2Z.id. exact Hdraws.
Qed.

Lemma generator_reaches_every_pool_string_witness :
  Forall pool_symbol (lit "password")
  /\ exists draws : list N,
       generate_strong_password (len (lit "password")) draws
       = (Some (lit "password"), []).
Proof.
  assert (Hpool : Forall pool_symbol (lit "password")).
  { apply Forall_forall. intros c Hc. apply pool_class_spec.
    revert c Hc. apply forallb_forall. vm_compute. reflexivity. }
  split; [exact Hpool | ].
  exact (generator_reaches_every_pool_string (lit "password") Hpool).
Defined.

(** With length 8 the generator can return a common password, which
    [check_password_strength] then scores 0. *)
Example generated_common_password :
  generate_strong_password 8 [15; 0; 18; 18; 22; 14; 17; 3]%N
  = (Some (lit "password"), [])
  /\ evaluate ImportError (Str (lit "password")) = (0, [too_common_message]).
Proof. split; vm_compute; reflexivity. Qed.

(** ** The early returns and the edges of the percentage *)

Lemma failures_not_early_message (s : str) :
  failures (rule_checks s) <> [invalid_input_message]
  /\ failures (rule_checks s) <> [too_common_message].
Proof.
  unfold failures, rule_checks.
  destruct (length_check s), (case_check s), (digit_check s), (special_check s);
    cbn [filter fst snd negb map]; split; vm_compute; discriminate.
Qed.

(** Without the estimator the feedback tells the two early returns apart
    from each other and from the rule checks: it is the invalid-input
    message alone exactly for a value that is not a string, and the
    too-common message alone exactly for a string that the common-password
    test catches. *)
Theorem early_returns_distinguishable (password : object) :
  (snd (evaluate ImportError password) = [invalid_input_message]
   <-> isinstance_str password = false)
  /\ (snd (evaluate ImportError password) = [too_common_message]
      <-> exists s, password = Str s
                    /\ str_in (lower s) COMMON_PASSWORDS = true).
Proof.
  assert (Hother : isinstance_str password = false ->
            (snd (evaluate ImportError password) = [invalid_input_message]
             <-> isinstance_str password = false)
            /\ (snd (evaluate ImportError password) = [too_common_message]
                <-> exists s, password = Str s
                              /\ str_in (lower s) COMMON_PASSWORDS = true)).
  { intros Hnot. split.
    - split; [intros _; exact Hnot | intros _].
      destruct password; try discriminate Hnot; reflexivity.
    - split.
      + intros E. exfalso.
        destruct password; try discriminate Hnot;
          vm_compute in E; discriminate E.
      + intros [s [E _]]. subst password. discriminate Hnot. }
  destruct password as [p| | | | | |]; try (apply Hother; reflexivity).
  clear Hother. unfold evaluate.
  destruct (str_in (lower p) COMMON_PASSWORDS) eqn:Hcommon.
  - unfold check_password_strength. rewrite Hcommon. cbn [returned snd isinstance_str].
    split.
    + split; [intros E; vm_compute in E; discriminate E | discriminate].
    + split; [intros _; exists p; split; [reflexivity | exact Hcommon]
             | reflexivity].
  - rewrite (check_password_strength_rules ImportError p Hcommon).
    cbn [returned snd isinstance_str].
    destruct (failures_not_early_message p) as [Hinvalid Hcommon'].
    split.
    + split; [intros E; contradiction | discriminate].
    + split; [intros E; contradiction | ].
      intros [s [E Hs]]. injection E as <-. congruence.
Qed.

Lemma int_nonneg_iff (x : Q) : (0 <= int x)%Z <-> - (1) < x.
Proof.
  destruct x as [n d]. unfold int, Qlt. cbn [Qnum Qden Qopp].
  destruct (Z.lt_ge_cases n 0) as [Hn | Hn].
  - rewrite <- (Z.opp_involutive n) at 1.
    rewrite Z.quot_opp_l by lia. rewrite Z.quot_div_nonneg by lia.
    assert (Hdiv : (0 <= - n / Z.pos d)%Z) by (apply Z.div_pos; lia).
    split.
    + intros Hq. assert (Hzero : (- n / Z.pos d = 0)%Z) by lia.
      apply Z.div_small_iff in Hzero; lia.
    + intros Hlt. rewrite Z.div_small; lia.
  - rewrite Z.quot_div_nonneg by lia.
    assert (Hdiv : (0 <= n / Z.pos d)%Z) by (apply Z.div_pos; lia).
    split; intros; lia.
Qed.

Lemma int_at_least (x : Q) (k : Z) :
  (0 < k)%Z -> ((k <= int x)%Z <-> inject_Z k <= x).
Proof.
  intros Hk. split.
  - destruct x as [n d]. unfold int, Qle. cbn [Qnum Qden inject_Z].
    intros Hq. destruct (Z.lt_ge_cases n 0) as [Hn | Hn].
    + exfalso. rewrite <- (Z.opp_involutive n) in Hq at 1.
      rewrite Z.quot_opp_l in Hq by lia. rewrite Z.quot_div_nonneg in Hq by lia.
      assert (Hdiv : (0 <= - n / Z.pos d)%Z) by (apply Z.div_pos; lia). lia.
    + rewrite Z.quot_div_nonneg in Hq by lia.
      pose proof (Z.mul_div_le n (Z.pos d)). nia.
  - intros Hle. pose proof (int_monotone _ _ Hle) as Hint.
    assert (E : int (inject_Z k) = k).
    { unfold int. cbn [Qnum Qden inject_Z]. apply Z.quot_1_r. }
    lia.
Qed.

(** The percentage is capped at 100 and reaches it exactly from score 4 on,
    but it is not capped at 0: it is negative as soon as the score is -0.04
    or less, which an estimator off its scale can cause. *)
Theorem percentage_capped_above_only (score : Q) :
  (strength_percentage score <= 100)%Z
  /\ (strength_percentage score = 100%Z <-> 4 <= score)
  /\ ((0 <= strength_percentage score)%Z <-> - (1 # 25) < score).
Proof.
  unfold strength_percentage. split; [lia | ]. split.
  - assert (H100 : (100 <= int (score / 4 * 100))%Z <-> 4 <= score).
    { rewrite (int_at_least _ 100) by lia.
      destruct score as [n d]. unfold Qle, Qdiv, Qmult, Qinv.
      cbn [Qnum Qden inject_Z]. split; intros; lia. }
    rewrite <- H100. lia.
  - assert (H0 : (0 <= int (score / 4 * 100))%Z <-> - (1 # 25) < score).
    { rewrite int_nonneg_iff.
      destruct score as [n d]. unfold Qlt, Qdiv, Qmult, Qinv, Qopp.
      cbn [Qnum Qden]. split; intros; lia. }
    rewrite <- H0. lia.
Qed.

(** An estimator that answers -5 on a password passing no check: the score
    is -2.5 and the width of the bar -62. *)
Example negative_percentage :
  let score := fst (evaluate (constant_estimator (-5) [] []) (Str (lit "abc"))) in
  score == - (5 # 2) /\ strength_percentage score = (-62)%Z.
Proof. split; vm_compute; reflexivity. Qed.

